(** * cougar-analysis: the WPILOG decoding pipeline

    Shallow embedding of [cougar_analysis/data_log_reader.py] (frame decoder,
    record classifier, payload decoders) and of the reconstruction walk of
    [cougar_analysis/log_helpers.py], followed by the properties proved about
    them.

    Conventions of the embedding:
    - a Python [bytes] object is a [list byte]; a byte read by indexing is the
      integer [byte_val b] in [0, 256);
    - a Python [int] is a [Z];
    - a Python [str] is the list of its code points ([pystr]);
    - a Python [float] is a binary64 value, given as a [spec_float];
    - a Python exception is a constructor of [exn], and a computation that can
      raise returns a [result];
    - the [entries] dictionary is a [gmap Z StartRecordData.t]. *)

From Stdlib Require Import ZArith QArith List String Ascii Bool Lia.
From Stdlib Require Import Strings.Byte.
From Stdlib Require Import Floats.SpecFloat.
From stdpp Require Import gmap.

Import ListNotations.
Local Open Scope Z_scope.

(* ===================================================================== *)
(** * Python runtime model                                                *)
(* ===================================================================== *)

(** ** Exceptions and the error monad *)

Inductive exn : Type :=
| StopIteration
| IndexError
| TypeError (msg : string)
| UnicodeDecodeError
| ValueError
| OverflowError
| OSError.

Inductive result (A : Type) : Type :=
| Ok (a : A)
| Raise (e : exn).

Arguments Ok {A} a.
Arguments Raise {A} e.

Definition bind {A B : Type} (c : result A) (k : A -> result B) : result B :=
  match c with
  | Ok a => k a
  | Raise e => Raise e
  end.

Notation "'let*' x ':=' c 'in' k" :=
  (bind c (fun x => k))
  (at level 10, x pattern, c at level 100, k at level 200).

(** [a and b] on booleans, where evaluating [b] may raise: [b] is evaluated
    only if [a] is true. *)
Definition and_then (a : bool) (b : result bool) : result bool :=
  if a then b else Ok false.

(** ** Bytes *)

Definition byte_val (b : byte) : Z := Z.of_N (Byte.to_N b).

Definition len {A : Type} (l : list A) : Z := Z.of_nat (length l).

(** [l[i]] on a bytes object: a negative index counts from the end, an index
    out of range raises [IndexError]. *)
Definition index (l : list byte) (i : Z) : result Z :=
  let j := if i <? 0 then i + len l else i in
  if j <? 0 then Raise IndexError
  else match l !! Z.to_nat j with
       | Some b => Ok (byte_val b)
       | None => Raise IndexError
       end.

(** Bound adjustment of a slice [l[a:b]] (CPython's [PySlice_AdjustIndices]
    with step 1). *)
Definition adjust_index (n i : Z) : Z :=
  if i <? 0 then Z.max 0 (i + n) else Z.min i n.

(** [l[a:b]]: never raises. *)
Definition slice {A : Type} (l : list A) (a b : Z) : list A :=
  let lo := adjust_index (len l) a in
  let hi := adjust_index (len l) b in
  firstn (Z.to_nat (hi - lo)) (skipn (Z.to_nat lo) l).

(** [range(n)] *)
Definition range (n : Z) : list Z := map Z.of_nat (seq 0 (Z.to_nat n)).

(** [int.from_bytes(bs, byteorder="little", signed=False)] *)
Fixpoint from_bytes_le (bs : list byte) : Z :=
  match bs with
  | [] => 0
  | b :: t => byte_val b + 256 * from_bytes_le t
  end.

(** [int.from_bytes(bs, byteorder="little", signed=True)] *)
Definition from_bytes_le_signed (bs : list byte) : Z :=
  let u := from_bytes_le bs in
  let w := 8 * len bs in
  if (0 <? w) && (2 ^ (w - 1) <=? u) then u - 2 ^ w else u.

(** ** Strings *)

(** A [str] is its sequence of code points. *)
Definition pystr : Type := list Z.

(** A source literal (all literals of the program are ASCII). *)
Definition str_lit (s : string) : pystr :=
  map (fun a => Z.of_N (N_of_ascii a)) (list_ascii_of_string s).

Fixpoint str_eqb (a b : pystr) : bool :=
  match a, b with
  | [], [] => true
  | x :: a', y :: b' => (x =? y) && str_eqb a' b'
  | _, _ => false
  end.

Definition is_cont (b : byte) : bool :=
  (0x80 <=? byte_val b) && (byte_val b <=? 0xBF).

Definition in_range (lo hi : Z) (b : byte) : bool :=
  (lo <=? byte_val b) && (byte_val b <=? hi).

Definition cont_bits (b : byte) : Z := byte_val b - 0x80.

(** Strict UTF-8 decoding (the well-formed byte sequences of the Unicode
    standard, table 3-7): [None] is CPython's [UnicodeDecodeError]. *)
Fixpoint utf8_decode (bs : list byte) : option (list Z) :=
  match bs with
  | [] => Some []
  | b0 :: t0 =>
    let c0 := byte_val b0 in
    if c0 <? 0x80 then option_map (cons c0) (utf8_decode t0)
    else if c0 <? 0xC2 then None
    else if c0 <? 0xE0 then
      match t0 with
      | b1 :: t1 =>
        if is_cont b1
        then option_map (cons ((c0 - 0xC0) * 64 + cont_bits b1)) (utf8_decode t1)
        else None
      | _ => None
      end
    else if c0 <? 0xF0 then
      match t0 with
      | b1 :: b2 :: t2 =>
        let lo := if c0 =? 0xE0 then 0xA0 else 0x80 in
        let hi := if c0 =? 0xED then 0x9F else 0xBF in
        if in_range lo hi b1 && is_cont b2
        then option_map
               (cons ((c0 - 0xE0) * 4096 + cont_bits b1 * 64 + cont_bits b2))
               (utf8_decode t2)
        else None
      | _ => None
      end
    else if c0 <? 0xF5 then
      match t0 with
      | b1 :: b2 :: b3 :: t3 =>
        let lo := if c0 =? 0xF0 then 0x90 else 0x80 in
        let hi := if c0 =? 0xF4 then 0x8F else 0xBF in
        if in_range lo hi b1 && is_cont b2 && is_cont b3
        then option_map
               (cons ((c0 - 0xF0) * 262144 + cont_bits b1 * 4096
                      + cont_bits b2 * 64 + cont_bits b3))
               (utf8_decode t3)
        else None
      | _ => None
      end
    else None
  end.

(** [str(bs, encoding="utf-8")] *)
Definition str_utf8 (bs : list byte) : result pystr :=
  match utf8_decode bs with
  | Some s => Ok s
  | None => Raise UnicodeDecodeError
  end.

(** ** Floats *)

(** The value of an IEEE-754 bit pattern with [mw] mantissa bits and [ew]
    exponent bits. *)
Definition float_of_bits (mw ew : Z) (bits : Z) : spec_float :=
  let sign := Z.testbit bits (mw + ew) in
  let e := (bits / 2 ^ mw) mod 2 ^ ew in
  let m := bits mod 2 ^ mw in
  let bias := 2 ^ (ew - 1) - 1 in
  if e =? 0 then
    match m with
    | Zpos p => S754_finite sign p (1 - bias - mw)
    | _ => S754_zero sign
    end
  else if e =? 2 ^ ew - 1 then
    if m =? 0 then S754_infinity sign else S754_nan
  else S754_finite sign (Z.to_pos (m + 2 ^ mw)) (e - bias - mw).

(** [struct.Struct("<d").unpack(bs)[0]] on 8 bytes. *)
Definition doubleStruct_unpack (bs : list byte) : spec_float :=
  float_of_bits 52 11 (from_bytes_le bs).

(** A binary32 value widened to a Python float: the same number, in the
    canonical binary64 representation. *)
Definition widen (f : spec_float) : spec_float :=
  match f with
  | S754_finite s m e => binary_round 53 1024 s m e
  | _ => f
  end.

(** [struct.Struct("<f").unpack(bs)[0]] on 4 bytes. *)
Definition floatStruct_unpack (bs : list byte) : spec_float :=
  widen (float_of_bits 23 8 (from_bytes_le bs)).

Definition float_of_int (z : Z) : spec_float :=
  match z with
  | Z0 => S754_zero false
  | Zpos p => S754_finite false p 0
  | Zneg p => S754_finite true p 0
  end.

(** [a / b] on two ints: the quotient of the exact integers, rounded once to
    the nearest binary64 (ties to even); dividing by zero raises in Python and
    is not needed here ([b] is the literal [1000000]). *)
Definition int_truediv (a b : Z) : spec_float :=
  SFdiv 53 1024 (float_of_int a) (float_of_int b).

(** ** Values *)

#[local] Unset Elimination Schemes.
Inductive pyvalue : Type :=
| VNone
| VBool (b : bool)
| VInt (z : Z)
| VFloat (f : spec_float)
| VStr (s : pystr)
| VList (l : list pyvalue).
#[local] Set Elimination Schemes.

(* ===================================================================== *)
(** * data_log_reader.py                                                  *)
(* ===================================================================== *)

Definition kControlStart : Z := 0.
Definition kControlFinish : Z := 1.
Definition kControlSetMetadata : Z := 2.

Module StartRecordData.
Record t : Type := mk {
  entry : Z;
  name : pystr;
  type : pystr;
  metadata : pystr
}.
End StartRecordData.

Module MetadataRecordData.
Record t : Type := mk {
  entry : Z;
  metadata : pystr
}.
End MetadataRecordData.

(** ** DataLogRecord *)

Record DataLogRecord : Type := mkRecord {
  entry : Z;
  timestamp : Z;
  data : list byte
}.

Definition isControl (r : DataLogRecord) : bool := entry r =? 0.

Definition _getControlType (r : DataLogRecord) : result Z := index (data r) 0.

Definition isStart (r : DataLogRecord) : result bool :=
  and_then (entry r =? 0)
    (and_then (17 <=? len (data r))
       (let* t := _getControlType r in Ok (t =? kControlStart))).

Definition isFinish (r : DataLogRecord) : result bool :=
  and_then (entry r =? 0)
    (and_then (len (data r) =? 5)
       (let* t := _getControlType r in Ok (t =? kControlFinish))).

Definition isSetMetadata (r : DataLogRecord) : result bool :=
  and_then (entry r =? 0)
    (and_then (9 <=? len (data r))
       (let* t := _getControlType r in Ok (t =? kControlSetMetadata))).

Definition _readInnerString (r : DataLogRecord) (pos : Z) : result (pystr * Z) :=
  let size := from_bytes_le (slice (data r) pos (pos + 4)) in
  let end_ := pos + 4 + size in
  if len (data r) <? end_ then Raise (TypeError "invalid string size")
  else let* s := str_utf8 (slice (data r) (pos + 4) end_) in Ok (s, end_).

Definition getStartData (r : DataLogRecord) : result StartRecordData.t :=
  let* b := isStart r in
  if negb b then Raise (TypeError "not a start record")
  else
    let entry := from_bytes_le (slice (data r) 1 5) in
    let* (name, pos) := _readInnerString r 5 in
    let* (type, pos) := _readInnerString r pos in
    let* (metadata, _) := _readInnerString r pos in
    Ok (StartRecordData.mk entry name type metadata).

Definition getFinishEntry (r : DataLogRecord) : result Z :=
  let* b := isFinish r in
  if negb b then Raise (TypeError "not a finish record")
  else Ok (from_bytes_le (slice (data r) 1 5)).

Definition getSetMetadataData (r : DataLogRecord) : result MetadataRecordData.t :=
  let* b := isSetMetadata r in
  if negb b then Raise (TypeError "not a finish record")
  else
    let entry := from_bytes_le (slice (data r) 1 5) in
    let* (metadata, _) := _readInnerString r 5 in
    Ok (MetadataRecordData.mk entry metadata).

Definition getBoolean (r : DataLogRecord) : result bool :=
  if negb (len (data r) =? 1) then Raise (TypeError "not a boolean")
  else let* b := index (data r) 0 in Ok (negb (b =? 0)).

Definition getInteger (r : DataLogRecord) : result Z :=
  if negb (len (data r) =? 8) then Raise (TypeError "not an integer")
  else Ok (from_bytes_le_signed (data r)).

Definition getFloat (r : DataLogRecord) : result spec_float :=
  if negb (len (data r) =? 4) then Raise (TypeError "not a float")
  else Ok (floatStruct_unpack (data r)).

Definition getDouble (r : DataLogRecord) : result spec_float :=
  if negb (len (data r) =? 8) then Raise (TypeError "not a double")
  else Ok (doubleStruct_unpack (data r)).

Definition getString (r : DataLogRecord) : result pystr := str_utf8 (data r).

Definition getBooleanArray (r : DataLogRecord) : list bool :=
  map (fun x => negb (byte_val x =? 0)) (data r).

(** [array.array(code).frombytes(bs)]: the items of [bs], [n] bytes each, in
    the byte order of the host.  The callers have checked that the length is
    a multiple of the item size. *)
Fixpoint chunks (fuel : nat) (n : nat) (bs : list byte) : list (list byte) :=
  match fuel, bs with
  | O, _ | _, [] => []
  | S fuel', _ => firstn n bs :: chunks fuel' n (skipn n bs)
  end.

Definition frombytes (n : nat) (bs : list byte) : list (list byte) :=
  chunks (length bs) n bs.

(** The host is taken to be little-endian with an 8-byte C [long] (LP64), as
    on the platforms the logs are recorded and analysed on. *)
Definition getIntegerArray (r : DataLogRecord) : result (list Z) :=
  if negb (len (data r) mod 8 =? 0) then Raise (TypeError "not an integer array")
  else Ok (map from_bytes_le_signed (frombytes 8 (data r))).

Definition getFloatArray (r : DataLogRecord) : result (list spec_float) :=
  if negb (len (data r) mod 4 =? 0) then Raise (TypeError "not a float array")
  else Ok (map floatStruct_unpack (frombytes 4 (data r))).

Definition getDoubleArray (r : DataLogRecord) : result (list spec_float) :=
  if negb (len (data r) mod 8 =? 0) then Raise (TypeError "not a double array")
  else Ok (map doubleStruct_unpack (frombytes 8 (data r))).

(** The loop [for i in range(size): val, pos = self._readInnerString(pos);
    arr.append(val)] of [getStringArray]. *)
Fixpoint readStrings (r : DataLogRecord) (n : nat) (pos : Z) (arr : list pystr)
  : result (list pystr) :=
  match n with
  | O => Ok arr
  | S n' =>
    let* (val, pos') := _readInnerString r pos in
    readStrings r n' pos' (arr ++ [val])
  end.

(** [size > (len(self.data) - 4) / 4] compares an int with a true quotient.
    Python compares an int with a float exactly, and the quotient by 4 of an
    int below 2^53 is exact, so the test is the comparison of the rationals. *)
Definition getStringArray (r : DataLogRecord) : result (list pystr) :=
  let size := from_bytes_le (slice (data r) 0 4) in
  if negb (Qle_bool (inject_Z size) ((len (data r) - 4) # 4))
  then Raise (TypeError "not a string array")
  else readStrings r (Z.to_nat size) 4 [].

(** ** DataLogIterator *)

Record DataLogIterator : Type := mkIterator {
  buf : list byte;
  pos : Z
}.

Definition _readVarInt (b : list byte) (pos len_ : Z) : result Z :=
  fold_left
    (fun acc i =>
       let* val := acc in
       let* x := index b (pos + i) in
       Ok (Z.lor val (Z.shiftl x (i * 8))))
    (range len_) (Ok 0).

Definition __next__ (it : DataLogIterator)
  : result (DataLogRecord * DataLogIterator) :=
  let b := buf it in
  let p := pos it in
  if len b <? p + 4 then Raise StopIteration
  else
    let* d := index b p in
    let entryLen := Z.land d 0x3 + 1 in
    let sizeLen := Z.land (Z.shiftr d 2) 0x3 + 1 in
    let timestampLen := Z.land (Z.shiftr d 4) 0x7 + 1 in
    let headerLen := 1 + entryLen + sizeLen + timestampLen in
    if len b <? p + headerLen then Raise StopIteration
    else
      let* entry := _readVarInt b (p + 1) entryLen in
      let* size := _readVarInt b (p + 1 + entryLen) sizeLen in
      let* timestamp := _readVarInt b (p + 1 + entryLen + sizeLen) timestampLen in
      if len b <? p + headerLen + size then Raise StopIteration
      else
        let record :=
          mkRecord entry timestamp (slice b (p + headerLen) (p + headerLen + size)) in
        Ok (record, mkIterator b (p + (headerLen + size))).

(** ** DataLogReader *)

Definition WPILOG : list byte := [x57; x50; x49; x4c; x4f; x47].

Definition byte_eqb (a b : byte) : bool := byte_val a =? byte_val b.

Fixpoint bytes_eqb (a b : list byte) : bool :=
  match a, b with
  | [], [] => true
  | x :: a', y :: b' => byte_eqb x y && bytes_eqb a' b'
  | _, _ => false
  end.

Definition getVersion (b : list byte) : Z :=
  if len b <? 12 then 0 else from_bytes_le (slice b 6 8).

Definition isValid (b : list byte) : bool :=
  (12 <=? len b) && bytes_eqb (slice b 0 6) WPILOG && (0x0100 <=? getVersion b).

Definition getExtraHeader (b : list byte) : result pystr :=
  if len b <? 12 then Ok []
  else
    let size := from_bytes_le (slice b 8 12) in
    str_utf8 (slice b 12 (12 + size)).

Definition __iter__ (b : list byte) : DataLogIterator :=
  let extraHeaderSize := from_bytes_le (slice b 8 12) in
  mkIterator b (12 + extraHeaderSize).

(* ===================================================================== *)
(** * log_helpers.py                                                      *)
(* ===================================================================== *)

(** The output row [[timestamp, entry.name, value]]. *)
Record OutputTuple : Type := mkOutput {
  timestampSeconds : spec_float;
  streamName : pystr;
  value : pyvalue
}.

Definition error_message : string :=
  "Invalid file, verify that the file is a wpilog or try downloading the log file again.".

(** The local variables of [convert_data_log_to_list] that the loop updates. *)
Record walk_state : Type := mkState {
  output : list OutputTuple;
  error : option string;
  entries : gmap Z StartRecordData.t
}.

Definition initial_state : walk_state := mkState [] None ∅.

Definition set_error (st : walk_state) : walk_state :=
  mkState (output st) (Some error_message) (entries st).

Definition set_entries (st : walk_state) (m : gmap Z StartRecordData.t)
  : walk_state :=
  mkState (output st) (error st) m.

Definition append_output (st : walk_state) (row : OutputTuple) : walk_state :=
  mkState (output st ++ [row]) (error st) (entries st).

(** [try: body except TypeError as e: handler]: any other exception
    propagates. *)
Definition try_except_TypeError {A : Type} (body handler : result A) : result A :=
  match body with
  | Raise (TypeError _) => handler
  | other => other
  end.

Section Reconstructor.

(** ["{:%Y-%m-%d %H:%M:%S.%f}".format(datetime.fromtimestamp(x))]: the
    rendering of a POSIX time in the time zone of the host, a function of
    the standard library that raises when [x] is out of its range. *)
Variable format_fromtimestamp : spec_float -> result pystr.

Definition extract_value_from_entry
    (entry : StartRecordData.t) (record : DataLogRecord) : result OutputTuple :=
  let timestamp := int_truediv (timestamp record) 1000000 in
  let type := StartRecordData.type entry in
  let* value :=
    if str_eqb (StartRecordData.name entry) (str_lit "systemTime")
       && str_eqb type (str_lit "int64")
    then
      let* i := getInteger record in
      let* s := format_fromtimestamp (int_truediv i 1000000) in
      Ok (VStr s)
    else if str_eqb type (str_lit "double") then
      let* v := getDouble record in Ok (VFloat v)
    else if str_eqb type (str_lit "int64") then
      let* v := getInteger record in Ok (VInt v)
    else if str_eqb type (str_lit "string") || str_eqb type (str_lit "json") then
      let* v := getString record in Ok (VStr v)
    else if str_eqb type (str_lit "boolean") then
      let* v := getBoolean record in Ok (VBool v)
    else if str_eqb type (str_lit "boolean[]") then
      Ok (VList (map VBool (getBooleanArray record)))
    else if str_eqb type (str_lit "double[]") then
      let* v := getDoubleArray record in Ok (VList (map VFloat v))
    else if str_eqb type (str_lit "float[]") then
      let* v := getFloatArray record in Ok (VList (map VFloat v))
    else if str_eqb type (str_lit "int64[]") then
      let* v := getIntegerArray record in Ok (VList (map VInt v))
    else if str_eqb type (str_lit "string[]") then
      let* v := getStringArray record in Ok (VList (map VStr v))
    else Ok VNone
  in
  Ok (mkOutput timestamp (StartRecordData.name entry) value).

(** The body of [for record in reader:]. *)
Definition loop_body (st : walk_state) (record : DataLogRecord)
  : result walk_state :=
  let* start := isStart record in
  if start then
    try_except_TypeError
      (let* data := getStartData record in
       Ok (set_entries st (<[StartRecordData.entry data := data]> (entries st))))
      (Ok (set_error st))
  else
    let* finish := isFinish record in
    if finish then
      try_except_TypeError
        (let* entry := getFinishEntry record in
         match entries st !! entry with
         | Some _ => Ok (set_entries st (delete entry (entries st)))
         | None => Ok st
         end)
        (Ok (set_error st))
    else
      let* setmeta := isSetMetadata record in
      if setmeta then
        try_except_TypeError
          (let* data := getSetMetadataData record in Ok st)
          (Ok (set_error st))
      else if isControl record then Ok (set_error st)
      else
        match entries st !! entry record with
        | None => Ok st
        | Some entry =>
          let* row := extract_value_from_entry entry record in
          Ok (append_output st row)
        end.

(** [for record in reader: body].  Each record consumes at least four
    bytes of the buffer, so the loop is driven by a counter that starts
    above the length of the buffer; [None] is the counter running out. *)
Fixpoint for_record_in (fuel : nat) (it : DataLogIterator) (st : walk_state)
  : option (result walk_state) :=
  match fuel with
  | O => None
  | S fuel' =>
    match __next__ it with
    | Raise StopIteration => Some (Ok st)
    | Raise e => Some (Raise e)
    | Ok (record, it') =>
      match loop_body st record with
      | Raise e => Some (Raise e)
      | Ok st' => for_record_in fuel' it' st'
      end
    end
  end.

Definition convert_data_log_to_list (input_file_bytes : list byte)
  : option (result (list OutputTuple * option string)) :=
  match for_record_in (S (length input_file_bytes))
                      (__iter__ input_file_bytes) initial_state with
  | Some (Ok st) => Some (Ok (output st, error st))
  | Some (Raise e) => Some (Raise e)
  | None => None
  end.

(** The walk over a given sequence of records. *)
Fixpoint walk (st : walk_state) (records : list DataLogRecord)
  : result walk_state :=
  match records with
  | [] => Ok st
  | record :: rest => let* st' := loop_body st record in walk st' rest
  end.

End Reconstructor.

(** The records an iterator yields ([list(it)]), with the same counter. *)
Fixpoint iterate (fuel : nat) (it : DataLogIterator)
  : option (result (list DataLogRecord)) :=
  match fuel with
  | O => None
  | S fuel' =>
    match __next__ it with
    | Raise StopIteration => Some (Ok [])
    | Raise e => Some (Raise e)
    | Ok (record, it') =>
      match iterate fuel' it' with
      | Some (Ok rs) => Some (Ok (record :: rs))
      | other => other
      end
    end
  end.

(* ===================================================================== *)
(** * The wire format, as the specification words it                      *)
(* ===================================================================== *)

Definition byte_of_Z (z : Z) : byte :=
  match Byte.of_N (Z.to_N (z mod 256)) with
  | Some b => b
  | None => x00
  end.

(** [w] bytes of [v], least significant first. *)
Fixpoint le_bytes (w : nat) (v : Z) : list byte :=
  match w with
  | O => []
  | S w' => byte_of_Z v :: le_bytes w' (v / 256)
  end.

(** Descriptor byte: bits [0:2) = e-1, bits [2:4) = s-1, bits [4:7) = t-1. *)
Definition descriptor_byte (e s t : Z) : byte :=
  byte_of_Z (Z.lor (e - 1) (Z.lor (Z.shiftl (s - 1) 2) (Z.shiftl (t - 1) 4))).

(** A record header with field widths [(e, s, t)]: descriptor byte, then
    stream id, payload size and timestamp, little-endian. *)
Definition encode_header (e s t : Z) (id size ts : Z) : list byte :=
  descriptor_byte e s t
    :: le_bytes (Z.to_nat e) id
    ++ le_bytes (Z.to_nat s) size
    ++ le_bytes (Z.to_nat t) ts.

(** A record with header field widths [(e, s, t)]: header, then payload. *)
Definition encode_record (e s t : Z) (r : DataLogRecord) : list byte :=
  encode_header e s t (entry r) (len (data r)) (timestamp r) ++ data r.

(** The widths are in range and large enough for the fields of the record. *)
Definition fits (e s t : Z) (r : DataLogRecord) : Prop :=
  1 <= e <= 4 /\ 1 <= s <= 4 /\ 1 <= t <= 8 /\
  0 <= entry r < 256 ^ e /\ len (data r) < 256 ^ s /\
  0 <= timestamp r < 256 ^ t.

(** A record together with the header field widths it is written with. *)
Record Frame : Type := mkFrame {
  entryIdLen : Z;
  sizeLen : Z;
  timestampLen : Z;
  raw : DataLogRecord
}.

Definition well_formed (f : Frame) : Prop :=
  fits (entryIdLen f) (sizeLen f) (timestampLen f) (raw f).

Definition encode_frame (f : Frame) : list byte :=
  encode_record (entryIdLen f) (sizeLen f) (timestampLen f) (raw f).

(** [bs] without its final [k] bytes. *)
Definition drop_last (k : nat) (bs : list byte) : list byte :=
  firstn (length bs - k) bs.

(** A length-prefixed string: u32 LE count, then the bytes. *)
Definition encode_string (bs : list byte) : list byte :=
  le_bytes 4 (len bs) ++ bs.

(** A [string[]] payload: u32 LE element count, then the elements. *)
Definition encode_string_array (elems : list (list byte)) : list byte :=
  le_bytes 4 (len elems) ++ concat (map encode_string elems).

(** An element of a string array: fewer than 2^32 bytes of well-formed
    UTF-8, and the string they spell. *)
Definition spells (bs : list byte) (s : pystr) : Prop :=
  len bs < 2 ^ 32 /\ utf8_decode bs = Some s.

(** A control payload declaring a stream. *)
Definition encode_start (id : Z) (name type metadata : list byte) : list byte :=
  byte_of_Z kControlStart :: le_bytes 4 id
    ++ encode_string name ++ encode_string type ++ encode_string metadata.

Definition bytes_of_string (s : string) : list byte := list_byte_of_string s.

(** The global header with an empty extra header, version 1.0. *)
Definition log_header : list byte :=
  WPILOG ++ le_bytes 2 0x0100 ++ le_bytes 4 0.

(** ** Control payload tags *)

(** The payload has a leading byte and it is the tag [k]. *)
Definition leading_tag_is (r : DataLogRecord) (k : Z) : bool :=
  match data r with
  | b :: _ => byte_val b =? k
  | [] => false
  end.

(** ** The frame a buffer declares at an offset *)

(** The descriptor byte at offset [p]. *)
Definition descriptor_at (b : list byte) (p : Z) : Z :=
  match b !! Z.to_nat p with
  | Some x => byte_val x
  | None => 0
  end.

Definition entryLen_at (b : list byte) (p : Z) : Z :=
  Z.land (descriptor_at b p) 3 + 1.

Definition sizeLen_at (b : list byte) (p : Z) : Z :=
  Z.land (Z.shiftr (descriptor_at b p) 2) 3 + 1.

Definition timestampLen_at (b : list byte) (p : Z) : Z :=
  Z.land (Z.shiftr (descriptor_at b p) 4) 7 + 1.

(** Header total length = 1 + entryIdLen + sizeLen + timestampLen. *)
Definition headerLen_at (b : list byte) (p : Z) : Z :=
  1 + entryLen_at b p + sizeLen_at b p + timestampLen_at b p.

Definition entry_at (b : list byte) (p : Z) : Z :=
  from_bytes_le (slice b (p + 1) (p + 1 + entryLen_at b p)).

Definition payloadSize_at (b : list byte) (p : Z) : Z :=
  from_bytes_le (slice b (p + 1 + entryLen_at b p)
                         (p + 1 + entryLen_at b p + sizeLen_at b p)).

Definition timestamp_at (b : list byte) (p : Z) : Z :=
  from_bytes_le (slice b (p + 1 + entryLen_at b p + sizeLen_at b p)
                         (p + 1 + entryLen_at b p + sizeLen_at b p
                          + timestampLen_at b p)).

(** The raw record framed at offset [p]. *)
Definition record_at (b : list byte) (p : Z) : DataLogRecord :=
  mkRecord (entry_at b p) (timestamp_at b p)
    (slice b (p + headerLen_at b p)
             (p + headerLen_at b p + payloadSize_at b p)).

(** ** Sample values and logs *)

(** The number 3.25 = 13 * 2^-2 as a binary64. *)
Definition float_3_25 : spec_float := binary_normalize 53 1024 13 (-2) false.

(** Its 8-byte little-endian IEEE-754 encoding, 0x400A000000000000. *)
Definition bytes_3_25 : list byte := [x00; x00; x00; x00; x00; x00; x0a; x40].

(** A control record declaring stream 7, named "speed", of type "double". *)
Definition declare_speed : DataLogRecord :=
  mkRecord 0 1
    (encode_start 7 (bytes_of_string "speed") (bytes_of_string "double") []).

(** A control record retiring stream 7. *)
Definition retire_speed : DataLogRecord :=
  mkRecord 0 4 (byte_of_Z kControlFinish :: le_bytes 4 7).

(** A control record setting the metadata of stream 7 to "m/s". *)
Definition annotate_speed : DataLogRecord :=
  mkRecord 0 2
    (byte_of_Z kControlSetMetadata :: le_bytes 4 7
       ++ encode_string (bytes_of_string "m/s")).

(** A log that declares stream 7 as a double, then carries a 3-byte record
    and a well-formed 8-byte record on it. *)
Definition short_double_log : list byte :=
  log_header
    ++ encode_record 1 1 1 declare_speed
    ++ encode_record 1 1 1 (mkRecord 7 2 [x01; x02; x03])
    ++ encode_record 1 1 1 (mkRecord 7 3 bytes_3_25).

(** A log whose declaration of stream 7 announces a 1000-byte name that is
    not there, followed by a declaration and a record that are well formed. *)
Definition short_name_log : list byte :=
  log_header
    ++ encode_record 1 1 1
         (mkRecord 0 1
            (byte_of_Z kControlStart :: le_bytes 4 7 ++ le_bytes 4 1000
               ++ le_bytes 8 0))
    ++ encode_record 1 1 1 declare_speed
    ++ encode_record 1 1 1 (mkRecord 7 3 bytes_3_25).

(** A 12-byte log whose global header announces a 100-byte extra header that
    is not there. *)
Definition missing_extra_header_log : list byte :=
  WPILOG ++ le_bytes 2 0x0100 ++ le_bytes 4 100.

(** A host whose clock rendering is not available. *)
Definition no_local_time : spec_float -> result pystr :=
  fun _ => Raise OSError.

(** ** Further payload encoders and predicates on states *)

(** A control payload retiring a stream. *)
Definition encode_finish (id : Z) : list byte :=
  byte_of_Z kControlFinish :: le_bytes 4 id.

(** A control payload setting the metadata of a stream. *)
Definition encode_set_metadata (id : Z) (metadata : list byte) : list byte :=
  byte_of_Z kControlSetMetadata :: le_bytes 4 id ++ encode_string metadata.

(** The 8 bytes of a signed 64-bit integer (two's complement), least
    significant first. *)
Definition int64_bytes (v : Z) : list byte := le_bytes 8 (v mod 2 ^ 64).

(** The global header: 8 bytes of magic and version, the length of the extra
    header, the extra header. *)
Definition encode_global_header (magic_version extra : list byte) : list byte :=
  magic_version ++ le_bytes 4 (len extra) ++ extra.

(** Every descriptor of the table is stored under its own stream id, and the
    id is a u32. *)
Definition table_ok (m : gmap Z StartRecordData.t) : Prop :=
  forall (k : Z) (d : StartRecordData.t),
    m !! k = Some d -> StartRecordData.entry d = k /\ 0 <= k < 2 ^ 32.

(** The error signal is unset or is the one message of the program. *)
Definition error_ok (e : option string) : Prop :=
  e = None \/ e = Some error_message.

(** The number of data records of a sequence. *)
Definition count_data (rs : list DataLogRecord) : nat :=
  length (List.filter (fun r => negb (isControl r)) rs).

(** The value types [extract_value_from_entry] decodes. *)
Definition decoded_types : list pystr :=
  map str_lit
    ["double"; "int64"; "string"; "json"; "boolean"; "boolean[]"; "double[]";
     "float[]"; "int64[]"; "string[]"]%string.

(** A step that returns has done one of five things. *)
Inductive step_kind (fmt : spec_float -> result pystr)
    (st : walk_state) (r : DataLogRecord) (st' : walk_state) : Prop :=
| step_declare (sd : StartRecordData.t) :
    getStartData r = Ok sd ->
    st' = set_entries st (<[StartRecordData.entry sd := sd]> (entries st)) ->
    step_kind fmt st r st'
| step_retire (X : Z) :
    getFinishEntry r = Ok X ->
    st' = set_entries st (delete X (entries st)) ->
    step_kind fmt st r st'
| step_error :
    isControl r = true -> st' = set_error st -> step_kind fmt st r st'
| step_skip :
    st' = st -> step_kind fmt st r st'
| step_row (d : StartRecordData.t) (row : OutputTuple) :
    isControl r = false ->
    entries st !! entry r = Some d ->
    extract_value_from_entry fmt d r = Ok row ->
    st' = append_output st row ->
    step_kind fmt st r st'.

(* ===================================================================== *)
(** * Properties                                                          *)
(* ===================================================================== *)

(** Case analysis on the first integer comparison of the goal. *)
Ltac case_ltb :=
  match goal with
  | |- context [?a <? ?b] => destruct (Z.ltb_spec a b)
  end.

(** Range conditions on the fields of a concrete record. *)
Ltac solve_fits :=
  unfold well_formed, fits, len;
  cbn [entryIdLen sizeLen timestampLen raw entry timestamp data length];
  lia.

(** ** Bytes, indexing and slices *)

Lemma byte_val_range (b : byte) : 0 <= byte_val b < 256.
Proof.
  unfold byte_val. pose proof (Byte.to_N_bounded b) as H.
  split; [apply N2Z.is_nonneg | ].
  apply N2Z.inj_le in H. change (Z.of_N 255) with 255 in H. lia.
Qed.

Lemma byte_val_inj (a b : byte) : byte_val a = byte_val b -> a = b.
Proof.
  unfold byte_val. intros H. apply N2Z.inj in H.
  assert (Hs : Some a = Some b); [ | by inversion Hs].
  rewrite <- (Byte.of_to_N a), <- (Byte.of_to_N b). by rewrite H.
Qed.

Lemma byte_val_of_Z (z : Z) : byte_val (byte_of_Z z) = z mod 256.
Proof.
  unfold byte_of_Z, byte_val.
  pose proof (Z.mod_pos_bound z 256 ltac:(lia)) as Hb.
  destruct (Byte.of_N (Z.to_N (z mod 256))) as [b|] eqn:E.
  - apply Byte.to_of_N in E. rewrite E. lia.
  - apply Byte.of_N_None_iff in E. lia.
Qed.

Lemma len_nonneg {A : Type} (l : list A) : 0 <= len l.
Proof. unfold len. lia. Qed.

Lemma len_app {A : Type} (l k : list A) : len (l ++ k) = len l + len k.
Proof. unfold len. rewrite length_app. lia. Qed.

Lemma len_cons {A : Type} (x : A) (l : list A) : len (x :: l) = 1 + len l.
Proof. unfold len. simpl length. lia. Qed.

Lemma index_lookup (l : list byte) (i : Z) (b : byte) :
  0 <= i -> l !! Z.to_nat i = Some b -> index l i = Ok (byte_val b).
Proof.
  intros Hi Hl. unfold index.
  destruct (i <? 0) eqn:E; [lia | ]. rewrite E. by rewrite Hl.
Qed.

Lemma index_in_range (l : list byte) (i : Z) :
  0 <= i < len l -> exists b, l !! Z.to_nat i = Some b /\ index l i = Ok (byte_val b).
Proof.
  intros Hi. unfold len in Hi.
  destruct (lookup_lt_is_Some_2 l (Z.to_nat i)) as [b Hb]; [lia | ].
  exists b. split; [done | ]. apply index_lookup; [lia | done].
Qed.

Lemma slice_nonneg {A : Type} (l : list A) (a b : Z) :
  0 <= a -> 0 <= b ->
  slice l a b = firstn (Z.to_nat (b - a)) (skipn (Z.to_nat a) l).
Proof.
  intros Ha Hb. unfold slice, adjust_index, len.
  destruct (a <? 0) eqn:Ea; [lia | ]. destruct (b <? 0) eqn:Eb; [lia | ].
  destruct (Z_le_gt_dec a (Z.of_nat (length l))) as [Hal | Hal].
  - rewrite (Z.min_l a) by lia.
    destruct (Z_le_gt_dec b (Z.of_nat (length l))) as [Hbl | Hbl].
    + by rewrite (Z.min_l b) by lia.
    + rewrite (Z.min_r b) by lia.
      rewrite !firstn_all2; [done | | ]; rewrite length_skipn; lia.
  - rewrite (Z.min_r a) by lia.
    rewrite !skipn_all2 by lia. by rewrite !firstn_nil.
Qed.

Lemma slice_middle {A : Type} (l x y z : list A) (a b : Z) :
  l = x ++ y ++ z -> a = len x -> b = len x + len y -> slice l a b = y.
Proof.
  intros -> -> ->. pose proof (len_nonneg x). pose proof (len_nonneg y).
  rewrite slice_nonneg by lia. unfold len.
  replace (Z.to_nat (Z.of_nat (length x))) with (length x) by lia.
  rewrite drop_app_length.
  replace (Z.to_nat (_ + _ - _)) with (length y) by lia.
  by rewrite take_app_length.
Qed.

Lemma len_slice_fit {A : Type} (l : list A) (a b : Z) :
  0 <= a <= b -> b <= len l -> len (slice l a b) = b - a.
Proof.
  intros Hab Hb. rewrite slice_nonneg by lia. unfold len in *.
  rewrite length_firstn, length_skipn. lia.
Qed.

Lemma bytes_eqb_eq (a b : list byte) : bytes_eqb a b = true <-> a = b.
Proof.
  revert b. induction a as [ | x a IH]; intros [ | y b]; simpl; try easy.
  rewrite andb_true_iff, IH. unfold byte_eqb. rewrite Z.eqb_eq. split.
  - intros [H ->]. by rewrite (byte_val_inj _ _ H).
  - intros H. by inversion H.
Qed.

Lemma str_eqb_eq (a b : pystr) : str_eqb a b = true <-> a = b.
Proof.
  revert b. induction a as [ | x a IH]; intros [ | y b]; simpl; try easy.
  rewrite andb_true_iff, IH, Z.eqb_eq. split.
  - by intros [-> ->].
  - intros H. by inversion H.
Qed.

(** ** Little-endian integers *)

Lemma from_bytes_le_range (bs : list byte) :
  0 <= from_bytes_le bs < 256 ^ len bs.
Proof.
  induction bs as [ | b bs IH]; simpl from_bytes_le.
  - change (len []) with 0. simpl. lia.
  - rewrite len_cons. pose proof (len_nonneg bs).
    rewrite Z.pow_add_r by lia. pose proof (byte_val_range b). lia.
Qed.

Lemma from_bytes_le_app (l k : list byte) :
  from_bytes_le (l ++ k) = from_bytes_le l + 256 ^ len l * from_bytes_le k.
Proof.
  induction l as [ | b l IH]; simpl from_bytes_le.
  - change (len []) with 0. simpl. lia.
  - rewrite len_cons, IH. pose proof (len_nonneg l).
    rewrite Z.pow_add_r by lia. lia.
Qed.

Lemma len_le_bytes (w : nat) (v : Z) : len (le_bytes w v) = Z.of_nat w.
Proof.
  revert v. induction w as [ | w IH]; intros v; [done | ].
  simpl le_bytes. rewrite len_cons, IH. lia.
Qed.

Lemma from_bytes_le_bytes (w : nat) (v : Z) :
  from_bytes_le (le_bytes w v) = v mod 256 ^ Z.of_nat w.
Proof.
  revert v. induction w as [ | w IH]; intros v.
  - simpl. by rewrite Z.mod_1_r.
  - simpl le_bytes. simpl from_bytes_le. rewrite IH, byte_val_of_Z.
    rewrite Nat2Z.inj_succ, Z.pow_succ_r by lia.
    rewrite Z.rem_mul_r by lia. lia.
Qed.

Lemma from_bytes_le_bytes_fit (w : nat) (v : Z) :
  0 <= v < 256 ^ Z.of_nat w -> from_bytes_le (le_bytes w v) = v.
Proof. intros H. rewrite from_bytes_le_bytes. by apply Z.mod_small. Qed.

Lemma lor_shiftl_add (a x k : Z) :
  0 <= k -> 0 <= a < 256 ^ k -> 0 <= x ->
  Z.lor a (Z.shiftl x (k * 8)) = a + 256 ^ k * x.
Proof.
  intros Hk Ha Hx.
  assert (Hp : 256 ^ k = 2 ^ (k * 8)).
  { change 256 with (2 ^ 8). rewrite <- Z.pow_mul_r by lia. f_equal. lia. }
  assert (Hland : Z.land a (Z.shiftl x (k * 8)) = 0).
  { apply Z.bits_inj'. intros n Hn. rewrite Z.land_spec, Z.bits_0.
    destruct (Z_lt_ge_dec n (k * 8)) as [Hlt | Hge].
    - rewrite Z.shiftl_spec_low by lia. apply andb_false_r.
    - destruct (Z.eq_dec a 0) as [-> | Hne]; [by rewrite Z.bits_0 | ].
      rewrite (Z.bits_above_log2 a n); [done | lia | ].
      apply Z.log2_lt_pow2; [lia | ].
      apply Z.lt_le_trans with (2 ^ (k * 8)); [lia | ].
      apply Z.pow_le_mono_r; lia. }
  rewrite <- Z.lxor_lor by done. rewrite <- Z.add_nocarry_lxor by done.
  rewrite Z.shiftl_mul_pow2 by lia. lia.
Qed.

(** [_readVarInt] reads the little-endian integer of the bytes it spans. *)
Lemma readVarInt_slice (b : list byte) (p : Z) (n : nat) :
  0 <= p -> p + Z.of_nat n <= len b ->
  _readVarInt b p (Z.of_nat n) = Ok (from_bytes_le (slice b p (p + Z.of_nat n))).
Proof.
  intros Hp. unfold _readVarInt, range. rewrite Nat2Z.id.
  induction n as [ | n IH]; intros Hn.
  - simpl. rewrite slice_nonneg by lia.
    replace (Z.to_nat (p + Z.of_nat 0 - p)) with 0%nat by lia. done.
  - rewrite seq_S, map_app, fold_left_app, IH by lia. simpl.
    destruct (index_in_range b (p + Z.of_nat n)) as (x & Hx & ->); [lia | ].
    simpl. f_equal.
    assert (Hs : slice b p (p + Z.of_nat (S n))
                 = slice b p (p + Z.of_nat n) ++ [x]).
    { rewrite !slice_nonneg by lia.
      replace (Z.to_nat (p + Z.of_nat (S n) - p)) with (S n) by lia.
      replace (Z.to_nat (p + Z.of_nat n - p)) with n by lia.
      apply take_S_r. rewrite lookup_drop.
      replace (Z.to_nat p + n)%nat with (Z.to_nat (p + Z.of_nat n)) by lia.
      done. }
    rewrite Hs, from_bytes_le_app. simpl from_bytes_le.
    pose proof (from_bytes_le_range (slice b p (p + Z.of_nat n))) as Hr.
    rewrite len_slice_fit in * by lia.
    replace (p + Z.of_nat n - p) with (Z.of_nat n) in * by lia.
    rewrite lor_shiftl_add; [lia | lia | done | ].
    apply byte_val_range.
Qed.

Lemma readVarInt_width (b : list byte) (p w : Z) :
  0 <= p -> 0 <= w -> p + w <= len b ->
  _readVarInt b p w = Ok (from_bytes_le (slice b p (p + w))).
Proof.
  intros Hp Hw Hl. rewrite <- (Z2Nat.id w) by done.
  apply readVarInt_slice; lia.
Qed.

(** ** The field widths of a descriptor byte *)

Lemma land_3_range (d : Z) : 0 <= Z.land d 3 <= 3.
Proof.
  change 3 with (Z.ones 2) at 1 2. rewrite Z.land_ones by lia.
  pose proof (Z.mod_pos_bound d (2 ^ 2) ltac:(lia)). change (2 ^ 2) with 4 in *.
  lia.
Qed.

Lemma land_7_range (d : Z) : 0 <= Z.land d 7 <= 7.
Proof.
  change 7 with (Z.ones 3) at 1 2. rewrite Z.land_ones by lia.
  pose proof (Z.mod_pos_bound d (2 ^ 3) ltac:(lia)). change (2 ^ 3) with 8 in *.
  lia.
Qed.

Lemma entryLen_range (b : list byte) (p : Z) : 1 <= entryLen_at b p <= 4.
Proof. unfold entryLen_at. pose proof (land_3_range (descriptor_at b p)). lia. Qed.

Lemma sizeLen_range (b : list byte) (p : Z) : 1 <= sizeLen_at b p <= 4.
Proof.
  unfold sizeLen_at.
  pose proof (land_3_range (Z.shiftr (descriptor_at b p) 2)). lia.
Qed.

Lemma timestampLen_range (b : list byte) (p : Z) : 1 <= timestampLen_at b p <= 8.
Proof.
  unfold timestampLen_at.
  pose proof (land_7_range (Z.shiftr (descriptor_at b p) 4)). lia.
Qed.

Lemma headerLen_range (b : list byte) (p : Z) : 4 <= headerLen_at b p <= 17.
Proof.
  unfold headerLen_at. pose proof (entryLen_range b p).
  pose proof (sizeLen_range b p). pose proof (timestampLen_range b p). lia.
Qed.

Lemma payloadSize_nonneg (b : list byte) (p : Z) : 0 <= payloadSize_at b p.
Proof. unfold payloadSize_at. apply from_bytes_le_range. Qed.

(** ** One step of the frame decoder *)

Lemma next_unfold (b : list byte) (p : Z) :
  0 <= p ->
  __next__ (mkIterator b p) =
    if len b <? p + 4 then Raise StopIteration
    else if len b <? p + headerLen_at b p then Raise StopIteration
    else if len b <? p + headerLen_at b p + payloadSize_at b p
    then Raise StopIteration
    else Ok (record_at b p,
             mkIterator b (p + (headerLen_at b p + payloadSize_at b p))).
Proof.
  intros Hp. unfold __next__. simpl buf. simpl pos.
  destruct (len b <? p + 4) eqn:E4; [done | ]. apply Z.ltb_ge in E4.
  destruct (index_in_range b p) as (x & Hx & ->); [lia | ]. simpl bind.
  assert (Hd : byte_val x = descriptor_at b p).
  { unfold descriptor_at. by rewrite Hx. }
  rewrite Hd.
  fold (entryLen_at b p) (sizeLen_at b p) (timestampLen_at b p).
  fold (headerLen_at b p).
  pose proof (entryLen_range b p). pose proof (sizeLen_range b p).
  pose proof (timestampLen_range b p).
  destruct (len b <? p + headerLen_at b p) eqn:Eh; [done | ].
  apply Z.ltb_ge in Eh. unfold headerLen_at in Eh.
  rewrite !readVarInt_width by lia. simpl bind.
  fold (payloadSize_at b p).
  destruct (len b <? p + headerLen_at b p + payloadSize_at b p); done.
Qed.

Lemma next_advance (b : list byte) (p : Z) (r : DataLogRecord)
    (it' : DataLogIterator) :
  0 <= p -> __next__ (mkIterator b p) = Ok (r, it') ->
  r = record_at b p /\
  it' = mkIterator b (p + (headerLen_at b p + len (data r))) /\
  len (data r) = payloadSize_at b p /\
  p + (headerLen_at b p + len (data r)) <= len b.
Proof.
  intros Hp. rewrite next_unfold by done.
  pose proof (headerLen_range b p). pose proof (payloadSize_nonneg b p).
  destruct (len b <? p + 4); [done | ].
  destruct (len b <? p + headerLen_at b p); [done | ].
  destruct (len b <? p + headerLen_at b p + payloadSize_at b p) eqn:E; [done | ].
  apply Z.ltb_ge in E. intros [= <- <-].
  assert (Hl : len (data (record_at b p)) = payloadSize_at b p).
  { simpl. rewrite len_slice_fit; lia. }
  rewrite Hl. repeat split; try done. lia.
Qed.

Lemma next_raises_only_stop (b : list byte) (p : Z) (e : exn) :
  0 <= p -> __next__ (mkIterator b p) = Raise e -> e = StopIteration.
Proof.
  intros Hp. rewrite next_unfold by done.
  repeat match goal with |- context [if ?c then _ else _] => destruct c end;
    congruence.
Qed.

(** ** Iteration *)

Lemma iterate_mono (fuel fuel' : nat) (it : DataLogIterator)
    (res : result (list DataLogRecord)) :
  iterate fuel it = Some res -> (fuel <= fuel')%nat -> iterate fuel' it = Some res.
Proof.
  revert fuel' it res. induction fuel as [ | fuel IH]; intros fuel' it res; [done | ].
  intros H Hle. destruct fuel' as [ | fuel']; [lia | ].
  simpl in *. destruct (__next__ it) as [[r it'] | e]; [ | done].
  destruct (iterate fuel it') as [res' | ] eqn:E.
  - rewrite (IH fuel' it' res' E) by lia. done.
  - done.
Qed.

Lemma iterate_enough (fuel : nat) (b : list byte) (p : Z) :
  0 <= p -> Z.max 0 (len b - p) < 4 * Z.of_nat fuel ->
  exists rs, iterate fuel (mkIterator b p) = Some (Ok rs)
             /\ 4 * len rs <= Z.max 0 (len b - p).
Proof.
  revert p. induction fuel as [ | fuel IH]; intros p Hp Hf; [lia | ].
  simpl iterate.
  destruct (__next__ (mkIterator b p)) as [[r it'] | e] eqn:E.
  - destruct (next_advance _ _ _ _ Hp E) as (_ & -> & _ & Hle).
    pose proof (headerLen_range b p). pose proof (len_nonneg (data r)).
    destruct (IH (p + (headerLen_at b p + len (data r)))) as (rs & -> & Hrs);
      [lia | lia | ].
    exists (r :: rs). split; [done | ]. rewrite len_cons. lia.
  - rewrite (next_raises_only_stop _ _ _ Hp E).
    exists []. split; [done | ]. change (len []) with 0. lia.
Qed.

(** ** Decoding an encoded header *)

Lemma descriptor_fields (e s t : Z) :
  1 <= e <= 4 -> 1 <= s <= 4 -> 1 <= t <= 8 ->
  Z.land (byte_val (descriptor_byte e s t)) 3 + 1 = e /\
  Z.land (Z.shiftr (byte_val (descriptor_byte e s t)) 2) 3 + 1 = s /\
  Z.land (Z.shiftr (byte_val (descriptor_byte e s t)) 4) 7 + 1 = t.
Proof.
  intros He Hs Ht.
  assert (e = 1 \/ e = 2 \/ e = 3 \/ e = 4) as Ce by lia.
  assert (s = 1 \/ s = 2 \/ s = 3 \/ s = 4) as Cs by lia.
  assert (t = 1 \/ t = 2 \/ t = 3 \/ t = 4 \/ t = 5 \/ t = 6 \/ t = 7 \/ t = 8)
    as Ct by lia.
  clear He Hs Ht.
  repeat match goal with H : _ \/ _ |- _ => destruct H as [H | H] end;
    subst; vm_compute; done.
Qed.

Lemma len_encode_header (e s t id size ts : Z) :
  1 <= e <= 4 -> 1 <= s <= 4 -> 1 <= t <= 8 ->
  len (encode_header e s t id size ts) = 1 + e + s + t.
Proof.
  intros He Hs Ht. unfold encode_header.
  rewrite len_cons, !len_app, !len_le_bytes. lia.
Qed.

Section EncodedHeader.
Variables (e s t id size ts : Z) (pre rest : list byte).
Hypothesis He : 1 <= e <= 4.
Hypothesis Hs : 1 <= s <= 4.
Hypothesis Ht : 1 <= t <= 8.
Hypothesis Hid : 0 <= id < 256 ^ e.
Hypothesis Hsize : 0 <= size < 256 ^ s.
Hypothesis Hts : 0 <= ts < 256 ^ t.

Let b := pre ++ encode_header e s t id size ts ++ rest.
Let p := len pre.

Lemma descriptor_at_encoded : descriptor_at b p = byte_val (descriptor_byte e s t).
Proof using Type.
  unfold descriptor_at, b, p, len, encode_header. rewrite Nat2Z.id.
  rewrite lookup_app_r by lia. by rewrite Nat.sub_diag.
Qed.

Lemma entryLen_at_encoded : entryLen_at b p = e.
Proof using He Hs Ht.
  unfold entryLen_at. rewrite descriptor_at_encoded.
  by destruct (descriptor_fields e s t He Hs Ht) as (-> & _ & _).
Qed.

Lemma sizeLen_at_encoded : sizeLen_at b p = s.
Proof using He Hs Ht.
  unfold sizeLen_at. rewrite descriptor_at_encoded.
  by destruct (descriptor_fields e s t He Hs Ht) as (_ & -> & _).
Qed.

Lemma timestampLen_at_encoded : timestampLen_at b p = t.
Proof using He Hs Ht.
  unfold timestampLen_at. rewrite descriptor_at_encoded.
  by destruct (descriptor_fields e s t He Hs Ht) as (_ & _ & ->).
Qed.

Lemma headerLen_at_encoded : headerLen_at b p = 1 + e + s + t.
Proof using He Hs Ht.
  unfold headerLen_at.
  by rewrite entryLen_at_encoded, sizeLen_at_encoded, timestampLen_at_encoded.
Qed.

Lemma entry_at_encoded : entry_at b p = id.
Proof using He Hs Ht Hid.
  unfold entry_at. rewrite entryLen_at_encoded.
  rewrite (slice_middle b (pre ++ [descriptor_byte e s t])
             (le_bytes (Z.to_nat e) id)
             (le_bytes (Z.to_nat s) size ++ le_bytes (Z.to_nat t) ts ++ rest)).
  - apply from_bytes_le_bytes_fit. rewrite Z2Nat.id; [done | lia].
  - unfold b, encode_header. rewrite <- !app_assoc. simpl.
    by rewrite <- !app_assoc.
  - rewrite len_app. done.
  - rewrite len_app, len_le_bytes. change (len [_]) with 1. unfold p. lia.
Qed.

Lemma payloadSize_at_encoded : payloadSize_at b p = size.
Proof using He Hs Ht Hsize.
  unfold payloadSize_at. rewrite entryLen_at_encoded, sizeLen_at_encoded.
  rewrite (slice_middle b
             (pre ++ descriptor_byte e s t :: le_bytes (Z.to_nat e) id)
             (le_bytes (Z.to_nat s) size)
             (le_bytes (Z.to_nat t) ts ++ rest)).
  - apply from_bytes_le_bytes_fit. rewrite Z2Nat.id; [done | lia].
  - unfold b, encode_header. rewrite <- !app_assoc. simpl.
    by rewrite <- !app_assoc.
  - rewrite len_app, len_cons, len_le_bytes. unfold p. lia.
  - rewrite len_app, len_cons, !len_le_bytes. unfold p. lia.
Qed.

Lemma timestamp_at_encoded : timestamp_at b p = ts.
Proof using He Hs Ht Hts.
  unfold timestamp_at.
  rewrite entryLen_at_encoded, sizeLen_at_encoded, timestampLen_at_encoded.
  rewrite (slice_middle b
             (pre ++ descriptor_byte e s t :: le_bytes (Z.to_nat e) id
                  ++ le_bytes (Z.to_nat s) size)
             (le_bytes (Z.to_nat t) ts) rest).
  - apply from_bytes_le_bytes_fit. rewrite Z2Nat.id; [done | lia].
  - unfold b, encode_header. rewrite <- !app_assoc. simpl.
    by rewrite <- !app_assoc.
  - rewrite len_app, len_cons, len_app, !len_le_bytes. unfold p. lia.
  - rewrite len_app, len_cons, len_app, !len_le_bytes. unfold p. lia.
Qed.

Lemma len_encoded_buffer : len b = len pre + (1 + e + s + t) + len rest.
Proof using He Hs Ht.
  unfold b. rewrite !len_app, len_encode_header by done. lia.
Qed.

Lemma payload_at_encoded :
  slice b (p + (1 + e + s + t)) (p + (1 + e + s + t) + size)
  = firstn (Z.to_nat size) rest.
Proof using He Hs Ht Hsize.
  pose proof (len_nonneg pre). rewrite slice_nonneg by (unfold p; lia).
  replace (Z.to_nat (p + (1 + e + s + t) + size - (p + (1 + e + s + t))))
    with (Z.to_nat size) by lia.
  f_equal. unfold b. rewrite app_assoc.
  replace (Z.to_nat (p + (1 + e + s + t)))
    with (length (pre ++ encode_header e s t id size ts)).
  - by rewrite drop_app_length.
  - pose proof (len_encode_header e s t id size ts He Hs Ht) as Hh.
    unfold p, len in *. rewrite length_app. lia.
Qed.

(** The step of the frame decoder at an encoded header: the record is
    yielded when the bytes after the header hold the declared payload. *)
Lemma next_at_encoded_header :
  __next__ (mkIterator b p) =
    if len rest <? size then Raise StopIteration
    else Ok (mkRecord id ts (firstn (Z.to_nat size) rest),
             mkIterator b (p + ((1 + e + s + t) + size))).
Proof using He Hs Ht Hid Hsize Hts.
  pose proof (len_nonneg pre). pose proof (len_nonneg rest).
  rewrite next_unfold by (unfold p; lia).
  unfold record_at.
  rewrite headerLen_at_encoded, payloadSize_at_encoded, entry_at_encoded,
    timestamp_at_encoded, payload_at_encoded, len_encoded_buffer.
  fold p.
  repeat case_ltb; try lia; done.
Qed.

End EncodedHeader.

Lemma fits_size (e s t : Z) (r : DataLogRecord) :
  fits e s t r -> 0 <= len (data r) < 256 ^ s.
Proof. intros (_ & _ & _ & _ & H & _). pose proof (len_nonneg (data r)). lia. Qed.

Lemma next_at_encoded_record (e s t : Z) (r : DataLogRecord)
    (pre post : list byte) :
  fits e s t r ->
  __next__ (mkIterator (pre ++ encode_record e s t r ++ post) (len pre))
  = Ok (r, mkIterator (pre ++ encode_record e s t r ++ post)
                      (len pre + ((1 + e + s + t) + len (data r)))).
Proof.
  intros Hfit. pose proof (fits_size _ _ _ _ Hfit) as Hsize.
  destruct Hfit as (He & Hs & Ht & Hid & _ & Hts).
  unfold encode_record. rewrite <- app_assoc.
  rewrite next_at_encoded_header by done.
  rewrite len_app. pose proof (len_nonneg post).
  case_ltb; [lia | ].
  unfold len. rewrite Nat2Z.id, take_app_length. by destruct r.
Qed.

(** C2: a record written with header field widths [(e, s, t)] that are large
    enough for its stream id, payload size and timestamp, placed anywhere in
    a buffer, is decoded by one step of the frame decoder into exactly the
    original record, and the cursor advances by header length plus payload
    size. *)
Theorem next_encode_record (e s t : Z) (r : DataLogRecord)
    (pre post : list byte) :
  fits e s t r ->
  __next__ (mkIterator (pre ++ encode_record e s t r ++ post) (len pre))
  = Ok (r, mkIterator (pre ++ encode_record e s t r ++ post)
                      (len pre + ((1 + e + s + t) + len (data r)))).
Proof. apply next_at_encoded_record. Qed.

(** Witness: a record on stream 7 with a 3-byte payload, written with widths
    (1, 2, 4) after a 12-byte global header. *)
Lemma next_encode_record_witness :
  __next__ (mkIterator
              (log_header
               ++ encode_record 1 2 4 (mkRecord 7 1500000 [x0a; x0b; x0c])
               ++ [xff])
              12)
  = Ok (mkRecord 7 1500000 [x0a; x0b; x0c],
        mkIterator
          (log_header
           ++ encode_record 1 2 4 (mkRecord 7 1500000 [x0a; x0b; x0c])
           ++ [xff])
          23).
Proof.
  apply (next_encode_record 1 2 4 (mkRecord 7 1500000 [x0a; x0b; x0c])
           log_header [xff]).
  solve_fits.
Defined.

(** ** Iterating over a sequence of encoded records *)

Lemma len_encode_record (e s t : Z) (r : DataLogRecord) :
  1 <= e <= 4 -> 1 <= s <= 4 -> 1 <= t <= 8 ->
  len (encode_record e s t r) = (1 + e + s + t) + len (data r).
Proof.
  intros He Hs Ht. unfold encode_record.
  rewrite len_app, len_encode_header; done.
Qed.

Lemma next_truncated (f : Frame) (pre : list byte) (k : nat) :
  well_formed f -> (0 < k <= length (data (raw f)))%nat ->
  __next__ (mkIterator (pre ++ drop_last k (encode_frame f)) (len pre))
  = Raise StopIteration.
Proof.
  intros Hfit Hk. pose proof (fits_size _ _ _ _ Hfit) as Hsize.
  destruct Hfit as (He & Hs & Ht & Hid & _ & Hts).
  unfold drop_last, encode_frame, encode_record.
  pose proof (len_encode_header (entryIdLen f) (sizeLen f) (timestampLen f)
                (entry (raw f)) (len (data (raw f))) (timestamp (raw f))
                He Hs Ht) as Hh.
  rewrite take_app_ge by (rewrite length_app; lia).
  rewrite next_at_encoded_header by done.
  case_ltb; [done | ].
  unfold len in *. rewrite length_take, length_app in *. lia.
Qed.

Lemma iterate_frames (frames : list Frame) (pre post : list byte) (fuel : nat) :
  Forall well_formed frames ->
  __next__ (mkIterator (pre ++ concat (map encode_frame frames) ++ post)
              (len pre + len (concat (map encode_frame frames))))
  = Raise StopIteration ->
  (length frames < fuel)%nat ->
  iterate fuel (mkIterator (pre ++ concat (map encode_frame frames) ++ post)
                  (len pre))
  = Some (Ok (map raw frames)).
Proof.
  revert pre fuel. induction frames as [ | f fs IH]; intros pre fuel Hwf Hstop Hfuel.
  - destruct fuel as [ | fuel]; [lia | ]. simpl in *.
    change (len []) with 0 in Hstop. rewrite Z.add_0_r in Hstop.
    by rewrite Hstop.
  - destruct fuel as [ | fuel]; [simpl in Hfuel; lia | ].
    inversion Hwf as [ | ? ? Hf Hfs]; subst.
    change (concat (map encode_frame (f :: fs)))
      with (encode_frame f ++ concat (map encode_frame fs)) in *.
    set (C := concat (map encode_frame fs)) in *.
    change (map raw (f :: fs)) with (raw f :: map raw fs).
    assert (HB : pre ++ (encode_frame f ++ C) ++ post
                 = (pre ++ encode_frame f) ++ C ++ post).
    { by rewrite <- !app_assoc. }
    assert (Hlen : len (pre ++ encode_frame f)
                   = len pre + ((1 + entryIdLen f + sizeLen f + timestampLen f)
                                + len (data (raw f)))).
    { rewrite len_app. unfold encode_frame.
      destruct Hf as (He & Hs & Ht & _). by rewrite len_encode_record. }
    simpl iterate.
    replace (pre ++ (encode_frame f ++ C) ++ post)
      with (pre ++ encode_frame f ++ (C ++ post)) at 1
      by (by rewrite <- !app_assoc).
    unfold encode_frame at 1. rewrite next_at_encoded_record by done.
    fold (encode_frame f). rewrite <- Hlen.
    replace (pre ++ encode_frame f ++ C ++ post)
      with ((pre ++ encode_frame f) ++ C ++ post) by (by rewrite <- !app_assoc).
    rewrite IH; [done | done | | simpl in Hfuel; lia].
    rewrite <- Hstop, HB. f_equal. f_equal. rewrite !len_app. lia.
Qed.

(** C9, as amended: one step of the frame decoder either stops or moves the
    cursor forward by header length plus payload size, where the header is
    at least 4 bytes long, so the bytes that remain strictly decrease;
    iteration from any start position therefore ends, and the number of
    records it yields is at most [max 0 (bufferLength - startPosition) / 4]. *)
Theorem iteration_terminates (b : list byte) (p : Z) :
  0 <= p ->
  (forall r it',
     __next__ (mkIterator b p) = Ok (r, it') ->
     4 <= headerLen_at b p /\
     buf it' = b /\
     pos it' = p + (headerLen_at b p + len (data r)) /\
     0 <= len b - pos it' < len b - p) /\
  exists rs,
    (forall fuel, Z.max 0 (len b - p) / 4 < Z.of_nat fuel ->
                  iterate fuel (mkIterator b p) = Some (Ok rs)) /\
    len rs <= Z.max 0 (len b - p) / 4.
Proof.
  intros Hp. split.
  - intros r it' H. destruct (next_advance _ _ _ _ Hp H) as (_ & -> & _ & Hle).
    pose proof (headerLen_range b p). pose proof (len_nonneg (data r)).
    cbn [buf pos]. repeat split; try done; lia.
  - set (M := Z.max 0 (len b - p)).
    assert (HM : 0 <= M / 4) by (apply Z.div_pos; lia).
    destruct (iterate_enough (S (Z.to_nat (M / 4))) b p Hp) as (rs & Hit & Hrs).
    { fold M. pose proof (Z.mul_succ_div_gt M 4 ltac:(lia)). lia. }
    exists rs. split.
    + intros fuel Hfuel. apply (iterate_mono _ _ _ _ Hit). lia.
    + apply Z.div_le_lower_bound; [lia | done].
Qed.

(** Witness: a log with two records, iterated from the end of its global
    header. *)
Lemma iteration_terminates_witness :
  exists rs,
    (forall fuel, Z.max 0 (len (log_header
                                ++ encode_record 1 1 1 (mkRecord 3 9 [x01])
                                ++ encode_record 2 1 1 (mkRecord 4 8 [])) - 12) / 4
                  < Z.of_nat fuel ->
                  iterate fuel
                    (mkIterator (log_header
                                 ++ encode_record 1 1 1 (mkRecord 3 9 [x01])
                                 ++ encode_record 2 1 1 (mkRecord 4 8 [])) 12)
                  = Some (Ok rs)) /\
    len rs <= 2.
Proof.
  apply (iteration_terminates
           (log_header ++ encode_record 1 1 1 (mkRecord 3 9 [x01])
                       ++ encode_record 2 1 1 (mkRecord 4 8 [])) 12).
  lia.
Defined.

(** C9, as stated, fails when the start position lies beyond the end of the
    buffer: the reader starts at 12 + 100 in a 12-byte buffer, the iteration
    yields no record, and [(bufferLength - startPosition) / 4] is negative. *)
Lemma iteration_bound_counterexample :
  ~ (forall (b : list byte) (p : Z) (fuel : nat) (rs : list DataLogRecord),
       0 <= p ->
       iterate fuel (mkIterator b p) = Some (Ok rs) ->
       len rs <= (len b - p) / 4).
Proof.
  intros H.
  specialize (H missing_extra_header_log
                (pos (__iter__ missing_extra_header_log)) 1%nat []).
  vm_compute in H. apply H; [discriminate | reflexivity | reflexivity].
Qed.

(** C3: a step of the frame decoder stops, raising nothing else, when fewer
    than 4 bytes remain past the cursor, when the declared header does not
    fit, or when the declared payload does not fit, and yields the framed
    record otherwise; a buffer whose last record misses the final 2 bytes of
    its payload yields exactly the records before it. *)
Theorem iteration_yields_framed_records :
  (forall (b : list byte) (p : Z),
     0 <= p ->
     (len b < p + 4
      \/ len b < p + headerLen_at b p
      \/ len b < p + headerLen_at b p + payloadSize_at b p ->
      __next__ (mkIterator b p) = Raise StopIteration) /\
     (~ (len b < p + 4
         \/ len b < p + headerLen_at b p
         \/ len b < p + headerLen_at b p + payloadSize_at b p) ->
      __next__ (mkIterator b p)
      = Ok (record_at b p,
            mkIterator b (p + (headerLen_at b p + payloadSize_at b p))))) /\
  (forall (pre : list byte) (frames : list Frame) (last : Frame) (fuel : nat),
     Forall well_formed frames ->
     well_formed last ->
     2 <= len (data (raw last)) ->
     (length frames < fuel)%nat ->
     iterate fuel
       (mkIterator (pre ++ concat (map encode_frame frames)
                        ++ drop_last 2 (encode_frame last))
                   (len pre))
     = Some (Ok (map raw frames))).
Proof.
  split.
  - intros b p Hp. rewrite next_unfold by done.
    pose proof (headerLen_range b p). pose proof (payloadSize_nonneg b p).
    split; intros H'; repeat case_ltb; try done; lia.
  - intros pre frames last fuel Hwf Hlast Hlen Hfuel.
    apply iterate_frames; [done | | done].
    rewrite app_assoc, <- len_app. apply next_truncated; [done | ].
    unfold len in Hlen. lia.
Qed.

(** Witness: two whole records followed by a third whose 3-byte payload is
    cut after its first byte. *)
Lemma iteration_yields_framed_records_witness :
  iterate 3
    (mkIterator
       (log_header
        ++ concat (map encode_frame
                     [mkFrame 1 1 1 (mkRecord 3 9 [x01]);
                      mkFrame 2 1 4 (mkRecord 4 70000 [])])
        ++ drop_last 2 (encode_frame (mkFrame 1 1 1 (mkRecord 3 10 [x01; x02; x03]))))
       (len log_header))
  = Some (Ok [mkRecord 3 9 [x01]; mkRecord 4 70000 []]).
Proof.
  apply (proj2 iteration_yields_framed_records log_header
           [mkFrame 1 1 1 (mkRecord 3 9 [x01]);
            mkFrame 2 1 4 (mkRecord 4 70000 [])]
           (mkFrame 1 1 1 (mkRecord 3 10 [x01; x02; x03])) 3%nat).
  - repeat constructor; solve_fits.
  - solve_fits.
  - unfold len. simpl. lia.
  - simpl. lia.
Defined.

(** ** Classification of control records *)

Lemma index_head (b : byte) (l : list byte) : index (b :: l) 0 = Ok (byte_val b).
Proof. by apply index_lookup. Qed.

Lemma classification_eq (r : DataLogRecord) :
  isStart r
  = Ok (isControl r && (17 <=? len (data r)) && leading_tag_is r kControlStart)
  /\ isFinish r
     = Ok (isControl r && (len (data r) =? 5) && leading_tag_is r kControlFinish)
  /\ isSetMetadata r
     = Ok (isControl r && (9 <=? len (data r))
           && leading_tag_is r kControlSetMetadata).
Proof.
  unfold isStart, isFinish, isSetMetadata, isControl, leading_tag_is,
    _getControlType.
  destruct r as [e ts [ | b l]]; cbn [entry data].
  - change (len []) with 0. destruct (e =? 0); repeat split; done.
  - rewrite index_head. cbn [bind].
    destruct (e =? 0), (17 <=? len (b :: l)), (len (b :: l) =? 5),
      (9 <=? len (b :: l)); repeat split; done.
Qed.

(** C10: the three classification predicates never fail: each one returns
    the conjunction of the control test, its bound on the payload length and
    the test of the leading tag byte, and the tag byte is only read when the
    length bound holds; a control record with an empty payload matches none
    of the three. *)
Theorem classification_total (r : DataLogRecord) :
  isStart r
  = Ok (isControl r && (17 <=? len (data r)) && leading_tag_is r kControlStart)
  /\ isFinish r
     = Ok (isControl r && (len (data r) =? 5) && leading_tag_is r kControlFinish)
  /\ isSetMetadata r
     = Ok (isControl r && (9 <=? len (data r))
           && leading_tag_is r kControlSetMetadata)
  /\ forall ts : Z,
       isStart (mkRecord 0 ts []) = Ok false
       /\ isFinish (mkRecord 0 ts []) = Ok false
       /\ isSetMetadata (mkRecord 0 ts []) = Ok false.
Proof.
  destruct (classification_eq r) as (Hs & Hf & Hm).
  split; [done | ]. split; [done | ]. split; [done | ].
  intros ts. repeat split.
Qed.

(** ** The global header *)

Lemma getVersion_bytes (b : list byte) :
  12 <= len b ->
  exists b6 b7, b !! 6%nat = Some b6 /\ b !! 7%nat = Some b7
                /\ getVersion b = byte_val b6 + 256 * byte_val b7.
Proof.
  intros Hlen. unfold getVersion. case_ltb; [lia | ].
  rewrite slice_nonneg by lia.
  do 8 (destruct b as [ | ? b]; [unfold len in Hlen; simpl in Hlen; lia | ]).
  eexists _, _. repeat split. simpl. lia.
Qed.

Lemma slice_magic (b : list byte) : slice b 0 6 = firstn 6 b.
Proof. by rewrite slice_nonneg by lia. Qed.

(** C4: [isValid] holds exactly when the buffer has at least 12 bytes, its
    bytes 0-5 are the magic tag "WPILOG", and the little-endian u16 at bytes
    6-7 is at least 0x0100. *)
Theorem isValid_iff (b : list byte) :
  isValid b = true <->
  12 <= len b
  /\ firstn 6 b = bytes_of_string "WPILOG"
  /\ exists b6 b7, b !! 6%nat = Some b6 /\ b !! 7%nat = Some b7
                   /\ 0x0100 <= byte_val b6 + 256 * byte_val b7.
Proof.
  unfold isValid.
  rewrite !andb_true_iff, !Z.leb_le, bytes_eqb_eq, slice_magic.
  change (bytes_of_string "WPILOG") with WPILOG.
  split.
  - intros [[Hlen Hmagic] Hver]. repeat split; try done.
    destruct (getVersion_bytes b Hlen) as (b6 & b7 & H6 & H7 & Hv).
    exists b6, b7. rewrite <- Hv. done.
  - intros (Hlen & Hmagic & b6 & b7 & H6 & H7 & Hver). repeat split; try done.
    destruct (getVersion_bytes b Hlen) as (c6 & c7 & H6' & H7' & ->).
    congruence.
Qed.

(** Witness: the 12-byte header of a version 1.0 log is valid. *)
Lemma isValid_iff_witness : isValid log_header = true.
Proof.
  apply (proj2 (isValid_iff log_header)).
  split; [unfold len; simpl; lia | ].
  split; [reflexivity | ].
  exists x00, x01. repeat split. vm_compute. discriminate.
Defined.

(** ** Length-prefixed strings and string arrays *)

Lemma len_encode_string (bs : list byte) : len (encode_string bs) = 4 + len bs.
Proof. unfold encode_string. by rewrite len_app, len_le_bytes. Qed.

Lemma readInnerString_encoded (r : DataLogRecord) (pre bs rest : list byte)
    (s : pystr) :
  data r = pre ++ encode_string bs ++ rest ->
  len bs < 2 ^ 32 ->
  utf8_decode bs = Some s ->
  _readInnerString r (len pre) = Ok (s, len pre + 4 + len bs).
Proof.
  intros Hdata Hlen Hs. unfold _readInnerString.
  pose proof (len_nonneg bs). pose proof (len_nonneg rest).
  rewrite (slice_middle (data r) pre (le_bytes 4 (len bs)) (bs ++ rest)).
  - rewrite from_bytes_le_bytes_fit by (change (256 ^ Z.of_nat 4) with (2 ^ 32); lia).
    case_ltb.
    + rewrite Hdata, !len_app, len_encode_string in *. lia.
    + rewrite (slice_middle (data r) (pre ++ le_bytes 4 (len bs)) bs rest).
      * unfold str_utf8. by rewrite Hs.
      * rewrite Hdata. unfold encode_string. by rewrite <- !app_assoc.
      * by rewrite len_app, len_le_bytes.
      * rewrite len_app, len_le_bytes. lia.
  - rewrite Hdata. unfold encode_string. by rewrite <- !app_assoc.
  - done.
  - by rewrite len_le_bytes.
Qed.

Lemma readStrings_encoded (r : DataLogRecord) (elems : list (list byte))
    (strs : list pystr) :
  Forall2 spells elems strs ->
  forall (pre rest : list byte) (arr : list pystr),
    data r = pre ++ concat (map encode_string elems) ++ rest ->
    readStrings r (length elems) (len pre) arr = Ok (arr ++ strs).
Proof.
  induction 1 as [ | bs s elems strs [Hlen Hs] _ IH]; intros pre rest arr Hdata.
  - simpl. by rewrite app_nil_r.
  - simpl readStrings.
    rewrite (readInnerString_encoded r pre bs
               (concat (map encode_string elems) ++ rest) s); try done.
    + cbn [bind].
      replace (len pre + 4 + len bs) with (len (pre ++ encode_string bs))
        by (rewrite len_app, len_encode_string; lia).
      rewrite (IH (pre ++ encode_string bs) rest).
      * by rewrite <- app_assoc.
      * rewrite Hdata. simpl. by rewrite <- !app_assoc.
    + rewrite Hdata. simpl. by rewrite <- !app_assoc.
Qed.

Lemma len_concat_encode_string (elems : list (list byte)) :
  4 * len elems <= len (concat (map encode_string elems)).
Proof.
  induction elems as [ | bs elems IH]; [done | ].
  cbn [map concat]. rewrite len_cons, len_app, len_encode_string.
  pose proof (len_nonneg bs). lia.
Qed.

Lemma string_array_count (r : DataLogRecord) :
  from_bytes_le (slice (data r) 0 4) = from_bytes_le (firstn 4 (data r)).
Proof. by rewrite slice_nonneg by lia. Qed.

(** The decoder of string arrays: the payload starts with its element
    count [n], a little-endian u32; decoding fails with a [TypeError] when
    [n > (payloadLength - 4) / 4]; otherwise [n] length-prefixed strings are
    read one after the other, so a payload made of a count and that many
    length-prefixed well-formed strings decodes to the list of these
    strings. *)
Theorem getStringArray_spec :
  (forall r : DataLogRecord,
     ((len (data r) - 4) # 4 < inject_Z (from_bytes_le (firstn 4 (data r))))%Q ->
     getStringArray r = Raise (TypeError "not a string array"))
  /\ (forall r : DataLogRecord,
        ~ ((len (data r) - 4) # 4 < inject_Z (from_bytes_le (firstn 4 (data r))))%Q ->
        getStringArray r
        = readStrings r (Z.to_nat (from_bytes_le (firstn 4 (data r)))) 4 [])
  /\ (forall (r : DataLogRecord) (elems : list (list byte)) (strs : list pystr)
             (extra : list byte),
        data r = encode_string_array elems ++ extra ->
        len elems < 2 ^ 32 ->
        Forall2 spells elems strs ->
        getStringArray r = Ok strs)
  /\ (forall id ts : Z,
        getStringArray
          (mkRecord id ts
             (encode_string_array [bytes_of_string "abc"; bytes_of_string "xy"]))
        = Ok [str_lit "abc"; str_lit "xy"]).
Proof.
  assert (Hbound : forall r,
            Qle_bool (inject_Z (from_bytes_le (firstn 4 (data r))))
              ((len (data r) - 4) # 4) = true
            <-> ~ ((len (data r) - 4) # 4
                   < inject_Z (from_bytes_le (firstn 4 (data r))))%Q).
  { intros r. rewrite Qle_bool_iff. split; [apply Qle_not_lt | apply Qnot_lt_le]. }
  split; [ | split; [ | split]].
  - intros r Hlt. unfold getStringArray. rewrite string_array_count.
    destruct (Qle_bool _ _) eqn:E; [ | done]. by apply Hbound in E.
  - intros r Hge. unfold getStringArray. rewrite string_array_count.
    apply Hbound in Hge. by rewrite Hge.
  - intros r elems strs extra Hdata Hn Hel.
    pose proof (len_nonneg elems). pose proof (len_nonneg extra).
    pose proof (len_concat_encode_string elems) as Hc.
    assert (Hcount : from_bytes_le (firstn 4 (data r)) = len elems).
    { rewrite <- string_array_count.
      rewrite (slice_middle (data r) [] (le_bytes 4 (len elems))
                 (concat (map encode_string elems) ++ extra)).
      - apply from_bytes_le_bytes_fit. change (256 ^ Z.of_nat 4) with (2 ^ 32). lia.
      - rewrite Hdata. unfold encode_string_array. by rewrite <- app_assoc.
      - done.
      - by rewrite len_le_bytes. }
    unfold getStringArray. rewrite string_array_count, Hcount.
    assert (Hq : Qle_bool (inject_Z (len elems)) ((len (data r) - 4) # 4) = true).
    { rewrite Qle_bool_iff. unfold Qle. simpl.
      rewrite Hdata. unfold encode_string_array.
      rewrite !len_app, len_le_bytes. lia. }
    rewrite Hq. cbn [negb]. unfold len at 1. rewrite Nat2Z.id.
    change 4 with (len (le_bytes 4 (len elems))) at 1.
    apply (readStrings_encoded r elems strs Hel _ extra []).
    rewrite Hdata. unfold encode_string_array. by rewrite <- app_assoc.
  - intros id ts. vm_compute. reflexivity.
Qed.

(** For instance, a count of 5 with no element is refused, and a count of 1
    followed by one length-prefixed string is decoded. *)
Lemma getStringArray_spec_witness :
  getStringArray (mkRecord 7 0 (le_bytes 4 5)) = Raise (TypeError "not a string array")
  /\ getStringArray (mkRecord 7 0 (encode_string_array [bytes_of_string "hi"] ++ []))
     = Ok [str_lit "hi"].
Proof.
  split.
  - apply (proj1 getStringArray_spec (mkRecord 7 0 (le_bytes 4 5))).
    vm_compute. reflexivity.
  - apply (proj1 (proj2 (proj2 getStringArray_spec))
             (mkRecord 7 0 (encode_string_array [bytes_of_string "hi"] ++ []))
             [bytes_of_string "hi"] [str_lit "hi"] []).
    + reflexivity.
    + unfold len. simpl. lia.
    + repeat constructor.
Defined.

(** ** The reconstruction walk *)

Section Walk.
Variable fmt : spec_float -> result pystr.

Lemma isControl_false_classes (r : DataLogRecord) :
  isControl r = false ->
  isStart r = Ok false /\ isFinish r = Ok false /\ isSetMetadata r = Ok false.
Proof.
  intros H. destruct (classification_eq r) as (-> & -> & ->).
  by rewrite H.
Qed.

Lemma isFinish_true_classes (r : DataLogRecord) :
  isFinish r = Ok true -> isStart r = Ok false.
Proof.
  destruct (classification_eq r) as (-> & -> & _). intros [= H].
  apply andb_true_iff in H as [H _]. apply andb_true_iff in H as [-> H].
  apply Z.eqb_eq in H. rewrite H. done.
Qed.

Lemma isSetMetadata_true_classes (r : DataLogRecord) :
  isSetMetadata r = Ok true -> isStart r = Ok false /\ isFinish r = Ok false.
Proof.
  destruct (classification_eq r) as (-> & -> & ->). intros [= H].
  apply andb_true_iff in H as [H Ht]. apply andb_true_iff in H as [-> H].
  unfold leading_tag_is in *. destruct (data r) as [ | b l]; [done | ].
  apply Z.eqb_eq in Ht. rewrite Ht. cbn [andb].
  by rewrite !andb_false_r.
Qed.

Lemma getFinishEntry_isFinish (r : DataLogRecord) (X : Z) :
  getFinishEntry r = Ok X -> isFinish r = Ok true.
Proof.
  unfold getFinishEntry. destruct (isFinish r) as [[ | ] | e]; done.
Qed.

(** The step on a data record. *)
Lemma loop_body_data (st : walk_state) (r : DataLogRecord) :
  isControl r = false ->
  loop_body fmt st r =
    match entries st !! entry r with
    | None => Ok st
    | Some d =>
      let* row := extract_value_from_entry fmt d r in
      Ok (append_output st row)
    end.
Proof.
  intros H. unfold loop_body.
  destruct (isControl_false_classes r H) as (-> & -> & ->).
  cbn [bind]. by rewrite H.
Qed.

(** The step on a record retiring a stream. *)
Lemma loop_body_finish (st : walk_state) (r : DataLogRecord) (X : Z) :
  getFinishEntry r = Ok X ->
  loop_body fmt st r =
    Ok (match entries st !! X with
        | Some _ => set_entries st (delete X (entries st))
        | None => st
        end).
Proof.
  intros H. unfold loop_body.
  pose proof (getFinishEntry_isFinish r X H) as Hf.
  rewrite (isFinish_true_classes r Hf), Hf. cbn [bind]. rewrite H.
  cbn [bind]. by destruct (entries st !! X).
Qed.

(** The step on a record updating metadata. *)
Lemma loop_body_setmetadata (st : walk_state) (r : DataLogRecord) :
  isSetMetadata r = Ok true ->
  loop_body fmt st r =
    match getSetMetadataData r with
    | Ok _ => Ok st
    | Raise (TypeError _) => Ok (set_error st)
    | Raise e => Raise e
    end.
Proof.
  intros H. unfold loop_body.
  destruct (isSetMetadata_true_classes r H) as (-> & ->). rewrite H.
  cbn [bind]. unfold try_except_TypeError.
  destruct (getSetMetadataData r) as [md | []]; done.
Qed.

(** A stream that is not in the table stays out of it unless the record
    declares it. *)
Lemma loop_body_keeps_absent (st st' : walk_state) (r : DataLogRecord) (X : Z) :
  entries st !! X = None ->
  (forall sd, getStartData r = Ok sd -> StartRecordData.entry sd <> X) ->
  loop_body fmt st r = Ok st' ->
  entries st' !! X = None.
Proof.
  intros Habs Hdecl. unfold loop_body, try_except_TypeError.
  destruct (isStart r) as [[ | ] | e0]; cbn [bind]; [ | | done].
  { destruct (getStartData r) as [sd | []] eqn:E; cbn [bind];
      intros [= <-]; try done.
    cbn [set_entries entries]. rewrite lookup_insert_ne; [done | ].
    by apply Hdecl. }
  destruct (isFinish r) as [[ | ] | e1]; cbn [bind]; [ | | done].
  { destruct (getFinishEntry r) as [Y | []]; cbn [bind]; try done.
    - destruct (entries st !! Y); intros [= <-]; [ | done].
      cbn [set_entries entries]. rewrite lookup_delete.
      by case_decide.
    - by intros [= <-]. }
  destruct (isSetMetadata r) as [[ | ] | e2]; cbn [bind]; [ | | done].
  { destruct (getSetMetadataData r) as [md | []]; cbn [bind];
      intros [= <-]; done. }
  destruct (isControl r); [by intros [= <-] | ].
  destruct (entries st !! entry r) as [d | ]; [ | by intros [= <-]].
  destruct (extract_value_from_entry fmt d r); cbn [bind]; [ | done].
  by intros [= <-].
Qed.

Lemma walk_keeps_absent (rs : list DataLogRecord) (st st' : walk_state) (X : Z) :
  entries st !! X = None ->
  (forall r sd, In r rs -> getStartData r = Ok sd ->
                StartRecordData.entry sd <> X) ->
  walk fmt st rs = Ok st' ->
  entries st' !! X = None.
Proof.
  revert st. induction rs as [ | r rs IH]; intros st Habs Hdecl.
  - by intros [= <-].
  - simpl walk. destruct (loop_body fmt st r) as [st1 | e] eqn:E; [ | done].
    cbn [bind]. apply IH.
    + apply (loop_body_keeps_absent st st1 r X Habs); [ | done].
      intros sd. apply Hdecl. by left.
    + intros r' sd Hin. apply Hdecl. by right.
Qed.

Lemma walk_app (rs rs' : list DataLogRecord) (st : walk_state) :
  walk fmt st (rs ++ rs') = let* st' := walk fmt st rs in walk fmt st' rs'.
Proof.
  revert st. induction rs as [ | r rs IH]; intros st; [done | ].
  simpl. destruct (loop_body fmt st r); cbn [bind]; [apply IH | done].
Qed.

(** The loop of [convert_data_log_to_list] is the walk over the records the
    iterator yields. *)
Lemma for_record_in_walk (fuel : nat) (it : DataLogIterator)
    (st : walk_state) (rs : list DataLogRecord) :
  iterate fuel it = Some (Ok rs) ->
  for_record_in fmt fuel it st = Some (walk fmt st rs).
Proof.
  revert it st rs. induction fuel as [ | fuel IH]; intros it st rs; [done | ].
  simpl. destruct (__next__ it) as [[r it'] | []]; try done.
  - destruct (iterate fuel it') as [[rs' | e] | ] eqn:E; try done.
    intros [= <-]. simpl.
    destruct (loop_body fmt st r) as [st' | e]; cbn [bind]; [ | done].
    by apply IH.
  - by intros [= <-].
Qed.

(** [convert_data_log_to_list] always ends: with the result of the walk over
    the records of the buffer. *)
Lemma convert_data_log_to_list_walk (input : list byte) :
  exists rs,
    iterate (S (length input)) (__iter__ input) = Some (Ok rs)
    /\ convert_data_log_to_list fmt input
       = Some (match walk fmt initial_state rs with
               | Ok st => Ok (output st, error st)
               | Raise e => Raise e
               end).
Proof.
  unfold __iter__.
  pose proof (from_bytes_le_range (slice input 8 12)) as [Hx _].
  destruct (iterate_enough (S (length input)) input
              (12 + from_bytes_le (slice input 8 12))) as (rs & Hit & _);
    [lia | unfold len; lia | ].
  exists rs. split; [done | ].
  unfold convert_data_log_to_list, __iter__.
  rewrite (for_record_in_walk _ _ _ rs Hit).
  by destruct (walk fmt initial_state rs).
Qed.

End Walk.

(** C7: the step on a MetadataUpdate record decodes the payload and either
    leaves the state as it is, or records the error when the payload is
    refused, or lets the exception of an ill-formed string through; it never
    writes to the stream table, so every entry of the table is the same after
    the step as before. *)
Theorem metadata_update_keeps_table (fmt : spec_float -> result pystr)
    (st : walk_state) (r : DataLogRecord) :
  isSetMetadata r = Ok true ->
  loop_body fmt st r
  = match getSetMetadataData r with
    | Ok _ => Ok st
    | Raise (TypeError _) => Ok (set_error st)
    | Raise e => Raise e
    end
  /\ forall st', loop_body fmt st r = Ok st' ->
                 entries st' = entries st
                 /\ forall id : Z, entries st' !! id = entries st !! id.
Proof.
  intros H. pose proof (loop_body_setmetadata fmt st r H) as Hstep.
  split; [done | ]. intros st'. rewrite Hstep.
  destruct (getSetMetadataData r) as [md | []]; intros [= <-]; done.
Qed.

(** Witness: a well-formed metadata update for stream 7, processed when the
    table holds stream 7, returns the state it was given. *)
Lemma metadata_update_keeps_table_witness :
  loop_body no_local_time
    (mkState [] None
       (<[7 := StartRecordData.mk 7 (str_lit "speed") (str_lit "double") []]> ∅))
    annotate_speed
  = Ok (mkState [] None
          (<[7 := StartRecordData.mk 7 (str_lit "speed") (str_lit "double") []]> ∅)).
Proof.
  rewrite (proj1 (metadata_update_keeps_table no_local_time
                    (mkState [] None
                       (<[7 := StartRecordData.mk 7 (str_lit "speed")
                                 (str_lit "double") []]> ∅))
                    annotate_speed eq_refl)).
  reflexivity.
Defined.

(** C5: the step on a StreamRetire record for stream [X] removes [X] from
    the stream table and changes nothing else (when [X] is absent the state
    is unchanged); and as long as no record declares [X] again, a data record
    on [X] is dropped: processing it after the retirement and any such
    records leaves the state, output and error included, as it was. *)
Theorem retired_stream_dropped (fmt : spec_float -> result pystr)
    (st : walk_state) (fin d : DataLogRecord) (rs : list DataLogRecord) (X : Z) :
  getFinishEntry fin = Ok X ->
  (forall r sd, In r rs -> getStartData r = Ok sd ->
                StartRecordData.entry sd <> X) ->
  isControl d = false ->
  entry d = X ->
  (exists st1,
     loop_body fmt st fin = Ok st1
     /\ entries st1 = delete X (entries st)
     /\ output st1 = output st
     /\ error st1 = error st
     /\ (entries st !! X = None -> st1 = st))
  /\ forall st2,
       walk fmt st (fin :: rs) = Ok st2 ->
       entries st2 !! X = None
       /\ walk fmt st (fin :: rs ++ [d]) = Ok st2.
Proof.
  intros Hfin Hdecl Hdata HX.
  pose proof (loop_body_finish fmt st fin X Hfin) as Hstep.
  assert (Hgone : forall st1, loop_body fmt st fin = Ok st1 ->
                              entries st1 !! X = None).
  { intros st1. rewrite Hstep. intros [= <-].
    destruct (entries st !! X) eqn:E; [ | done].
    cbn [set_entries entries]. apply lookup_delete_eq. }
  split.
  - eexists. split; [exact Hstep | ].
    destruct (entries st !! X) eqn:E; cbn [set_entries entries output error].
    + repeat split; done.
    + repeat split; try done. symmetry. by apply delete_id.
  - intros st2 Hwalk.
    simpl walk in Hwalk.
    destruct (loop_body fmt st fin) as [st1 | e] eqn:E1; [ | done].
    cbn [bind] in Hwalk.
    assert (Habs : entries st2 !! X = None).
    { apply (walk_keeps_absent fmt rs st1 st2 X); [by apply Hgone | done | done]. }
    split; [done | ].
    change (fin :: rs ++ [d]) with ((fin :: rs) ++ [d]).
    rewrite walk_app. simpl walk at 1. rewrite E1. cbn [bind]. rewrite Hwalk.
    cbn [bind]. simpl walk. rewrite loop_body_data by done.
    by rewrite HX, Habs.
Qed.

(** Witness: stream 7 is in the table; it is retired, a metadata update for
    it follows, and then a data record on stream 7, which is dropped. *)
Lemma retired_stream_dropped_witness :
  walk no_local_time
    (mkState [] None
       (<[7 := StartRecordData.mk 7 (str_lit "speed") (str_lit "double") []]> ∅))
    (retire_speed :: [annotate_speed] ++ [mkRecord 7 5 bytes_3_25])
  = Ok (mkState [] None
          (delete 7
             (<[7 := StartRecordData.mk 7 (str_lit "speed") (str_lit "double") []]>
                ∅))).
Proof.
  apply (proj2 (retired_stream_dropped no_local_time
                  (mkState [] None
                     (<[7 := StartRecordData.mk 7 (str_lit "speed")
                               (str_lit "double") []]> ∅))
                  retire_speed (mkRecord 7 5 bytes_3_25) [annotate_speed] 7
                  eq_refl
                  ltac:(intros r sd [<- | []] H; vm_compute in H; discriminate)
                  eq_refl eq_refl)).
  vm_compute. reflexivity.
Defined.

(** C8: a data record on a declared stream of type "double" whose payload is
    the 8-byte little-endian encoding of 3.25 is output as a row whose value
    is the float 3.25, whose name is the name of the descriptor, and whose
    timestamp is the raw timestamp divided by 1000000. *)
Theorem double_record_output (fmt : spec_float -> result pystr)
    (st : walk_state) (d : StartRecordData.t) (r : DataLogRecord) :
  isControl r = false ->
  entries st !! entry r = Some d ->
  StartRecordData.type d = str_lit "double" ->
  data r = bytes_3_25 ->
  loop_body fmt st r
  = Ok (append_output st
          (mkOutput (int_truediv (timestamp r) 1000000)
                    (StartRecordData.name d)
                    (VFloat float_3_25))).
Proof.
  intros Hdata Hd Htype Hpayload.
  rewrite loop_body_data, Hd by done.
  unfold extract_value_from_entry. rewrite Htype.
  change (str_eqb (str_lit "double") (str_lit "int64")) with false.
  rewrite andb_false_r.
  change (str_eqb (str_lit "double") (str_lit "double")) with true.
  cbv iota. unfold getDouble. rewrite Hpayload.
  reflexivity.
Qed.

(** Witness: stream 7 is declared as "speed" of type "double"; a record on
    it stamped 1500000 microseconds yields the row [1.5, "speed", 3.25]. *)
Lemma double_record_output_witness :
  loop_body no_local_time
    (mkState [] None
       (<[7 := StartRecordData.mk 7 (str_lit "speed") (str_lit "double") []]> ∅))
    (mkRecord 7 1500000 bytes_3_25)
  = Ok (mkState
          [mkOutput (S754_finite false 6755399441055744 (-52))
                    (str_lit "speed")
                    (VFloat (S754_finite false 7318349394477056 (-51)))]
          None
          (<[7 := StartRecordData.mk 7 (str_lit "speed") (str_lit "double") []]> ∅)).
Proof.
  assert (Hd : entries
                 (mkState [] None
                    (<[7 := StartRecordData.mk 7 (str_lit "speed")
                              (str_lit "double") []]> ∅))
               !! entry (mkRecord 7 1500000 bytes_3_25)
               = Some (StartRecordData.mk 7 (str_lit "speed")
                         (str_lit "double") [])).
  { vm_compute. reflexivity. }
  exact (double_record_output no_local_time
           (mkState [] None
              (<[7 := StartRecordData.mk 7 (str_lit "speed")
                        (str_lit "double") []]> ∅))
           (StartRecordData.mk 7 (str_lit "speed") (str_lit "double") [])
           (mkRecord 7 1500000 bytes_3_25)
           eq_refl Hd eq_refl eq_refl).
Defined.

Lemma extract_string_array (fmt : spec_float -> result pystr)
    (d : StartRecordData.t) (r : DataLogRecord) :
  StartRecordData.type d = str_lit "string[]" ->
  extract_value_from_entry fmt d r
  = let* v := getStringArray r in
    Ok (mkOutput (int_truediv (timestamp r) 1000000)
                 (StartRecordData.name d) (VList (map VStr v))).
Proof.
  intros Htype. unfold extract_value_from_entry. rewrite Htype.
  change (str_eqb (str_lit "string[]") (str_lit "int64")) with false.
  rewrite andb_false_r. destruct (getStringArray r); reflexivity.
Qed.

(** C6: for a data record on a stream whose descriptor has value type
    "string[]", the first 4 payload bytes are the element count [n], a
    little-endian u32; when [n > (payloadLength - 4) / 4] the decoding of the
    record fails with the [TypeError] of a string array, which leaves the
    step; otherwise [n] length-prefixed strings are read one after the
    other and make the value of the row, so a payload made of a count and
    that many length-prefixed well-formed strings yields the row whose value
    is the list of these strings, and [2][3]"abc"[2]"xy" yields
    ["abc"; "xy"]. *)
Theorem string_array_record_decoded (fmt : spec_float -> result pystr)
    (st : walk_state) (d : StartRecordData.t) (r : DataLogRecord) :
  isControl r = false ->
  entries st !! entry r = Some d ->
  StartRecordData.type d = str_lit "string[]" ->
  (((len (data r) - 4) # 4 < inject_Z (from_bytes_le (firstn 4 (data r))))%Q ->
   extract_value_from_entry fmt d r = Raise (TypeError "not a string array")
   /\ loop_body fmt st r = Raise (TypeError "not a string array"))
  /\ (~ ((len (data r) - 4) # 4 < inject_Z (from_bytes_le (firstn 4 (data r))))%Q ->
      extract_value_from_entry fmt d r
      = let* v := readStrings r (Z.to_nat (from_bytes_le (firstn 4 (data r)))) 4 []
        in Ok (mkOutput (int_truediv (timestamp r) 1000000)
                        (StartRecordData.name d) (VList (map VStr v))))
  /\ (forall (elems : list (list byte)) (strs : list pystr) (extra : list byte),
        data r = encode_string_array elems ++ extra ->
        len elems < 2 ^ 32 ->
        Forall2 spells elems strs ->
        loop_body fmt st r
        = Ok (append_output st
                (mkOutput (int_truediv (timestamp r) 1000000)
                          (StartRecordData.name d)
                          (VList (map VStr strs)))))
  /\ (data r = encode_string_array [bytes_of_string "abc"; bytes_of_string "xy"] ->
      loop_body fmt st r
      = Ok (append_output st
              (mkOutput (int_truediv (timestamp r) 1000000)
                        (StartRecordData.name d)
                        (VList [VStr (str_lit "abc"); VStr (str_lit "xy")])))).
Proof.
  intros Hdata Hd Htype.
  destruct getStringArray_spec as (Hfail & Hread & Hround & _).
  assert (Hstep : loop_body fmt st r
                  = let* row := extract_value_from_entry fmt d r in
                    Ok (append_output st row)).
  { by rewrite loop_body_data, Hd by done. }
  rewrite Hstep, (extract_string_array fmt d r Htype).
  split; [ | split; [ | split]].
  - intros Hlt. by rewrite (Hfail r Hlt).
  - intros Hge. by rewrite (Hread r Hge).
  - intros elems strs extra Hpayload Hn Hel.
    by rewrite (Hround r elems strs extra Hpayload Hn Hel).
  - intros Hpayload.
    rewrite (Hround r [bytes_of_string "abc"; bytes_of_string "xy"]
               [str_lit "abc"; str_lit "xy"] []).
    + done.
    + by rewrite app_nil_r.
    + unfold len. simpl. lia.
    + repeat constructor.
Qed.

(** Witness: stream 9 is declared as "names" of type "string[]"; a record on
    it with the payload [2][3]"abc"[2]"xy" yields the row
    [0.5, "names", ["abc"; "xy"]], and a record that announces 5 elements in
    a 4-byte payload raises. *)
Lemma string_array_record_decoded_witness :
  loop_body no_local_time
    (mkState [] None
       (<[9 := StartRecordData.mk 9 (str_lit "names") (str_lit "string[]") []]> ∅))
    (mkRecord 9 500000
       (encode_string_array [bytes_of_string "abc"; bytes_of_string "xy"]))
  = Ok (append_output
          (mkState [] None
             (<[9 := StartRecordData.mk 9 (str_lit "names") (str_lit "string[]")
                       []]> ∅))
          (mkOutput (int_truediv 500000 1000000) (str_lit "names")
                    (VList [VStr (str_lit "abc"); VStr (str_lit "xy")])))
  /\ loop_body no_local_time
       (mkState [] None
          (<[9 := StartRecordData.mk 9 (str_lit "names") (str_lit "string[]")
                    []]> ∅))
       (mkRecord 9 600000 (le_bytes 4 5))
     = Raise (TypeError "not a string array").
Proof.
  assert (Hd : forall ts bs,
             entries
               (mkState [] None
                  (<[9 := StartRecordData.mk 9 (str_lit "names")
                            (str_lit "string[]") []]> ∅))
             !! entry (mkRecord 9 ts bs)
             = Some (StartRecordData.mk 9 (str_lit "names")
                       (str_lit "string[]") [])).
  { intros ts bs. vm_compute. reflexivity. }
  split.
  - exact (proj2 (proj2 (proj2
             (string_array_record_decoded no_local_time
                (mkState [] None
                   (<[9 := StartRecordData.mk 9 (str_lit "names")
                             (str_lit "string[]") []]> ∅))
                (StartRecordData.mk 9 (str_lit "names") (str_lit "string[]") [])
                (mkRecord 9 500000
                   (encode_string_array
                      [bytes_of_string "abc"; bytes_of_string "xy"]))
                eq_refl (Hd _ _) eq_refl)))
             eq_refl).
  - apply (proj1 (string_array_record_decoded no_local_time
                    (mkState [] None
                       (<[9 := StartRecordData.mk 9 (str_lit "names")
                                 (str_lit "string[]") []]> ∅))
                    (StartRecordData.mk 9 (str_lit "names") (str_lit "string[]") [])
                    (mkRecord 9 600000 (le_bytes 4 5))
                    eq_refl (Hd _ _) eq_refl)).
    vm_compute. reflexivity.
Defined.

(** C1, at an input where the code departs from it: in a log that declares
    stream 7 as a double and then carries a 3-byte record on it, the
    [TypeError] of the payload decoder leaves [convert_data_log_to_list] and
    no list is returned, although a well-formed record follows; the same
    [TypeError] raised while decoding a control record is caught, recorded
    in the error signal, and the walk goes on. *)
Theorem short_double_aborts_walk (fmt : spec_float -> result pystr) :
  convert_data_log_to_list fmt short_double_log
  = Some (Raise (TypeError "not a double"))
  /\ convert_data_log_to_list fmt short_name_log
     = Some (Ok ([mkOutput (int_truediv 3 1000000) (str_lit "speed")
                           (VFloat float_3_25)],
                 Some error_message)).
Proof. split; vm_compute; reflexivity. Qed.

(* ===================================================================== *)
(** * Further properties of the reader and of the walk                    *)
(* ===================================================================== *)

(** Both sides of an equation between concatenations, right-nested. *)
Ltac norm_app :=
  repeat first [rewrite <- app_assoc | rewrite <- app_comm_cons];
  try reflexivity.

(** ** Control payloads *)

Lemma len_slice_le {A : Type} (l : list A) (a b : Z) :
  0 <= a <= b -> len (slice l a b) <= b - a.
Proof.
  intros Hab. rewrite slice_nonneg by lia. unfold len.
  rewrite length_take. lia.
Qed.

Lemma u32_field_range (bs : list byte) (a : Z) :
  0 <= a -> 0 <= from_bytes_le (slice bs a (a + 4)) < 2 ^ 32.
Proof.
  intros Ha. pose proof (from_bytes_le_range (slice bs a (a + 4))) as [H0 H1].
  pose proof (len_slice_le bs a (a + 4) ltac:(lia)) as Hl.
  pose proof (len_nonneg (slice bs a (a + 4))).
  split; [done | ]. eapply Z.lt_le_trans; [exact H1 | ].
  change (2 ^ 32) with (256 ^ 4). apply Z.pow_le_mono_r; lia.
Qed.

Lemma byte_val_tag (k : Z) : 0 <= k < 256 -> byte_val (byte_of_Z k) = k.
Proof. intros H. rewrite byte_val_of_Z. by apply Z.mod_small. Qed.

Lemma readInnerString_raises (r : DataLogRecord) (p : Z) (e : exn) :
  _readInnerString r p = Raise e ->
  e = TypeError "invalid string size" \/ e = UnicodeDecodeError.
Proof.
  unfold _readInnerString, str_utf8. case_ltb; [intros [= <-]; by left | ].
  destruct (utf8_decode _); [done | ]. intros [= <-]. by right.
Qed.

Lemma getStartData_isStart (r : DataLogRecord) (sd : StartRecordData.t) :
  getStartData r = Ok sd ->
  isStart r = Ok true
  /\ StartRecordData.entry sd = from_bytes_le (slice (data r) 1 5).
Proof.
  unfold getStartData. destruct (isStart r) as [[ | ] | e]; try done.
  cbn [bind negb].
  destruct (_readInnerString r 5) as [[n p1] | ]; [ | done]. cbn [bind].
  destruct (_readInnerString r p1) as [[t p2] | ]; [ | done]. cbn [bind].
  destruct (_readInnerString r p2) as [[m p3] | ]; [ | done]. cbn [bind].
  by intros [= <-].
Qed.

Section ControlPayloads.
Variables (ts id : Z) (extra : list byte).
Hypothesis Hid : 0 <= id < 2 ^ 32.

Lemma u32_fit : 0 <= id < 256 ^ Z.of_nat 4.
Proof using Hid. change (256 ^ Z.of_nat 4) with (2 ^ 32). done. Qed.

Lemma control_id_field (tag : byte) (rest : list byte) :
  from_bytes_le (slice (tag :: le_bytes 4 id ++ rest) 1 5) = id.
Proof using Hid.
  rewrite (slice_middle _ [tag] (le_bytes 4 id) rest); try done.
  apply from_bytes_le_bytes_fit, u32_fit.
Qed.

(** X1: decoding the payload of a stream declaration gives back the stream
    id and the three strings it was built from. *)
Theorem getStartData_encode_start (name type metadata : list byte)
    (n t m : pystr) :
  spells name n -> spells type t -> spells metadata m ->
  getStartData (mkRecord 0 ts (encode_start id name type metadata ++ extra))
  = Ok (StartRecordData.mk id n t m).
Proof using Hid.
  intros [Hn1 Hn2] [Ht1 Ht2] [Hm1 Hm2].
  set (r := mkRecord 0 ts (encode_start id name type metadata ++ extra)).
  pose proof (len_nonneg name). pose proof (len_nonneg type).
  pose proof (len_nonneg metadata). pose proof (len_nonneg extra).
  assert (Hdata : data r = (byte_of_Z kControlStart :: le_bytes 4 id)
                           ++ encode_string name
                           ++ encode_string type
                           ++ encode_string metadata ++ extra).
  { unfold r, encode_start. cbn [data]. norm_app. }
  assert (Hstart : isStart r = Ok true).
  { destruct (classification_eq r) as (-> & _ & _). f_equal.
    unfold isControl, leading_tag_is. rewrite Hdata. cbn [entry app].
    rewrite byte_val_tag by (unfold kControlStart; lia).
    rewrite len_cons, !len_app, !len_encode_string, len_le_bytes.
    rewrite !andb_true_iff, Z.leb_le, !Z.eqb_eq. repeat split; try done. lia. }
  unfold getStartData. rewrite Hstart. cbn [bind negb].
  replace (from_bytes_le (slice (data r) 1 5)) with id
    by (rewrite Hdata; cbn [app]; by rewrite control_id_field).
  set (p0 := byte_of_Z kControlStart :: le_bytes 4 id) in *.
  assert (H5 : 5 = len p0) by (unfold p0; by rewrite len_cons, len_le_bytes).
  rewrite H5.
  rewrite (readInnerString_encoded r p0 name
             (encode_string type ++ encode_string metadata ++ extra) n);
    try done.
  cbn [bind].
  replace (len p0 + 4 + len name) with (len (p0 ++ encode_string name))
    by (rewrite len_app, len_encode_string; lia).
  rewrite (readInnerString_encoded r (p0 ++ encode_string name) type
             (encode_string metadata ++ extra) t);
    [ | rewrite Hdata; norm_app | done | done].
  cbn [bind].
  replace (len (p0 ++ encode_string name) + 4 + len type)
    with (len ((p0 ++ encode_string name) ++ encode_string type))
    by (rewrite !len_app, !len_encode_string; lia).
  rewrite (readInnerString_encoded r
             ((p0 ++ encode_string name) ++ encode_string type) metadata
             extra m);
    [ | rewrite Hdata; norm_app | done | done].
  done.
Qed.

(** X2: decoding the payload of a metadata update gives back the stream id
    and the metadata string. *)
Theorem getSetMetadataData_encode (metadata : list byte) (m : pystr) :
  spells metadata m ->
  getSetMetadataData (mkRecord 0 ts (encode_set_metadata id metadata ++ extra))
  = Ok (MetadataRecordData.mk id m).
Proof using Hid.
  intros [Hm1 Hm2].
  set (r := mkRecord 0 ts (encode_set_metadata id metadata ++ extra)).
  pose proof (len_nonneg metadata). pose proof (len_nonneg extra).
  assert (Hdata : data r = (byte_of_Z kControlSetMetadata :: le_bytes 4 id)
                           ++ encode_string metadata ++ extra).
  { unfold r, encode_set_metadata. cbn [data]. norm_app. }
  assert (Hmeta : isSetMetadata r = Ok true).
  { destruct (classification_eq r) as (_ & _ & ->). f_equal.
    unfold isControl, leading_tag_is. rewrite Hdata. cbn [entry app].
    rewrite byte_val_tag by (unfold kControlSetMetadata; lia).
    rewrite len_cons, !len_app, !len_encode_string, len_le_bytes.
    rewrite !andb_true_iff, Z.leb_le, !Z.eqb_eq. repeat split; try done. lia. }
  unfold getSetMetadataData. rewrite Hmeta. cbn [bind negb].
  replace (from_bytes_le (slice (data r) 1 5)) with id
    by (rewrite Hdata; cbn [app]; by rewrite control_id_field).
  set (p0 := byte_of_Z kControlSetMetadata :: le_bytes 4 id) in *.
  assert (H5 : 5 = len p0) by (unfold p0; by rewrite len_cons, len_le_bytes).
  rewrite H5.
  rewrite (readInnerString_encoded r p0 metadata extra m); done.
Qed.

(** X3: decoding the payload of a stream retirement gives back the stream
    id; a retirement payload followed by anything more is refused. *)
Theorem getFinishEntry_encode_finish :
  getFinishEntry (mkRecord 0 ts (encode_finish id)) = Ok id
  /\ (extra <> [] ->
      getFinishEntry (mkRecord 0 ts (encode_finish id ++ extra))
      = Raise (TypeError "not a finish record")).
Proof using Hid.
  split.
  - unfold getFinishEntry.
    destruct (classification_eq (mkRecord 0 ts (encode_finish id)))
      as (_ & -> & _).
    cbn [bind]. unfold encode_finish at 1 2 3. cbn [data entry].
    unfold isControl, leading_tag_is. cbn [entry data].
    rewrite byte_val_tag by (unfold kControlFinish; lia).
    rewrite len_cons, len_le_bytes. cbn [negb andb Z.eqb].
    change (1 + Z.of_nat 4 =? 5) with true. cbn [andb negb].
    f_equal. unfold encode_finish.
    rewrite <- (app_nil_r (le_bytes 4 id)). apply control_id_field.
  - intros Hne. unfold getFinishEntry.
    assert (Hf : isFinish (mkRecord 0 ts (encode_finish id ++ extra)) = Ok false).
    { destruct (classification_eq (mkRecord 0 ts (encode_finish id ++ extra)))
        as (_ & -> & _).
      f_equal. cbn [data].
      assert (Hlen : len (encode_finish id ++ extra) <> 5).
      { unfold encode_finish. rewrite len_app, len_cons, len_le_bytes.
        destruct extra as [ | x l]; [done | ]. rewrite len_cons.
        pose proof (len_nonneg l). lia. }
      destruct (Z.eqb_spec (len (encode_finish id ++ extra)) 5); [done | ].
      by rewrite andb_false_r. }
    by rewrite Hf.
Qed.

End ControlPayloads.

(** Witness for X1: the declaration of stream 7, "speed", "double". *)
Lemma getStartData_encode_start_witness :
  getStartData
    (mkRecord 0 1
       (encode_start 7 (bytes_of_string "speed") (bytes_of_string "double") []
        ++ []))
  = Ok (StartRecordData.mk 7 (str_lit "speed") (str_lit "double") []).
Proof.
  apply (getStartData_encode_start 1 7 []); try (vm_compute; intuition congruence).
  all: split; [unfold len; simpl; lia | reflexivity].
Defined.

(** Witness for X2: the metadata of stream 7 set to "m/s". *)
Lemma getSetMetadataData_encode_witness :
  getSetMetadataData
    (mkRecord 0 2 (encode_set_metadata 7 (bytes_of_string "m/s") ++ [xff]))
  = Ok (MetadataRecordData.mk 7 (str_lit "m/s")).
Proof.
  apply (getSetMetadataData_encode 2 7 [xff]).
  - lia.
  - split; [unfold len; simpl; lia | reflexivity].
Defined.

(** Witness for X3: the retirement of stream 7, alone and with one byte
    too many. *)
Lemma getFinishEntry_encode_finish_witness :
  getFinishEntry (mkRecord 0 4 (encode_finish 7)) = Ok 7
  /\ getFinishEntry (mkRecord 0 4 (encode_finish 7 ++ [x00]))
     = Raise (TypeError "not a finish record").
Proof.
  destruct (getFinishEntry_encode_finish 4 7 [x00] ltac:(lia)) as [H1 H2].
  split; [exact H1 | apply H2; discriminate].
Defined.

(** ** What the control decoders can raise, and the ids they return *)

Lemma isStart_ok (r : DataLogRecord) : exists b, isStart r = Ok b.
Proof. destruct (classification_eq r) as (-> & _ & _). by eexists. Qed.

Lemma isFinish_ok (r : DataLogRecord) : exists b, isFinish r = Ok b.
Proof. destruct (classification_eq r) as (_ & -> & _). by eexists. Qed.

Lemma isSetMetadata_ok (r : DataLogRecord) : exists b, isSetMetadata r = Ok b.
Proof. destruct (classification_eq r) as (_ & _ & ->). by eexists. Qed.

Lemma getStartData_raises (r : DataLogRecord) (e : exn) :
  getStartData r = Raise e ->
  (exists msg, e = TypeError msg) \/ e = UnicodeDecodeError.
Proof.
  unfold getStartData. destruct (isStart_ok r) as [[ | ] ->]; cbn [bind negb].
  - destruct (_readInnerString r 5) as [[n p1] | e1] eqn:E1; cbn [bind].
    + destruct (_readInnerString r p1) as [[t p2] | e2] eqn:E2; cbn [bind].
      * destruct (_readInnerString r p2) as [[m p3] | e3] eqn:E3; cbn [bind];
          [done | ].
        intros [= <-]. destruct (readInnerString_raises _ _ _ E3) as [-> | ->];
          eauto.
      * intros [= <-]. destruct (readInnerString_raises _ _ _ E2) as [-> | ->];
          eauto.
    + intros [= <-]. destruct (readInnerString_raises _ _ _ E1) as [-> | ->];
        eauto.
  - intros [= <-]. eauto.
Qed.

Lemma getSetMetadataData_raises (r : DataLogRecord) (e : exn) :
  getSetMetadataData r = Raise e ->
  (exists msg, e = TypeError msg) \/ e = UnicodeDecodeError.
Proof.
  unfold getSetMetadataData.
  destruct (isSetMetadata_ok r) as [[ | ] ->]; cbn [bind negb].
  - destruct (_readInnerString r 5) as [[m p1] | e1] eqn:E1; cbn [bind];
      [done | ].
    intros [= <-]. destruct (readInnerString_raises _ _ _ E1) as [-> | ->]; eauto.
  - intros [= <-]. eauto.
Qed.

Lemma getFinishEntry_raises (r : DataLogRecord) (e : exn) :
  getFinishEntry r = Raise e -> e = TypeError "not a finish record".
Proof.
  unfold getFinishEntry. destruct (isFinish_ok r) as [[ | ] ->]; cbn [bind negb];
    [done | by intros [= <-]].
Qed.

(** X4: the three control decoders never fail on an index: [getFinishEntry]
    raises nothing but its own [TypeError], and [getStartData] and
    [getSetMetadataData] raise nothing but a [TypeError] or the
    [UnicodeDecodeError] of an ill-formed string. *)
Theorem control_decoders_raise (r : DataLogRecord) (e : exn) :
  (getStartData r = Raise e ->
   (exists msg, e = TypeError msg) \/ e = UnicodeDecodeError)
  /\ (getFinishEntry r = Raise e -> e = TypeError "not a finish record")
  /\ (getSetMetadataData r = Raise e ->
      (exists msg, e = TypeError msg) \/ e = UnicodeDecodeError).
Proof.
  split; [apply getStartData_raises | ].
  split; [apply getFinishEntry_raises | apply getSetMetadataData_raises].
Qed.

(** Witness for X4: a declaration whose name is the single byte 0xff. *)
Lemma control_decoders_raise_witness :
  (exists msg, UnicodeDecodeError = TypeError msg)
  \/ UnicodeDecodeError = UnicodeDecodeError.
Proof.
  apply (proj1 (control_decoders_raise
                  (mkRecord 0 1 (encode_start 7 [xff] [] []))
                  UnicodeDecodeError)).
  vm_compute. reflexivity.
Defined.

(** X5: the stream id a control decoder returns is a u32, and the decoder
    succeeds only on a control record of its own class. *)
Theorem control_decoders_ids (r : DataLogRecord) :
  (forall sd, getStartData r = Ok sd ->
              isStart r = Ok true /\ isControl r = true
              /\ 0 <= StartRecordData.entry sd < 2 ^ 32)
  /\ (forall id, getFinishEntry r = Ok id ->
                 isFinish r = Ok true /\ isControl r = true
                 /\ len (data r) = 5 /\ 0 <= id < 2 ^ 32)
  /\ (forall md, getSetMetadataData r = Ok md ->
                 isSetMetadata r = Ok true /\ isControl r = true
                 /\ 0 <= MetadataRecordData.entry md < 2 ^ 32).
Proof.
  pose proof (u32_field_range (data r) 1 ltac:(lia)) as Hu.
  change (1 + 4) with 5 in Hu.
  destruct (classification_eq r) as (Hs & Hf & Hm).
  split; [ | split].
  - intros sd H. destruct (getStartData_isStart r sd H) as [Hst ->].
    split; [done | ]. split; [ | done].
    rewrite Hs in Hst. injection Hst as Hst.
    by apply andb_true_iff in Hst as [[Hc _]%andb_true_iff _].
  - intros id H. pose proof (getFinishEntry_isFinish r id H) as Hfin.
    split; [done | ].
    unfold getFinishEntry in H. rewrite Hfin in H. cbn [bind negb] in H.
    injection H as <-.
    rewrite Hf in Hfin. injection Hfin as Hfin.
    apply andb_true_iff in Hfin as [[Hc Hl]%andb_true_iff _].
    apply Z.eqb_eq in Hl. done.
  - intros md H. unfold getSetMetadataData in H.
    destruct (isSetMetadata r) as [[ | ] | e] eqn:E; try done.
    cbn [bind negb] in H.
    destruct (_readInnerString r 5) as [[m p1] | ]; [ | done].
    cbn [bind] in H. injection H as <-.
    split; [done | ]. split; [ | done].
    injection Hm as Hm. symmetry in Hm.
    by apply andb_true_iff in Hm as [[Hc _]%andb_true_iff _].
Qed.

(** Witness for X5: the id of a well-formed declaration. *)
Lemma control_decoders_ids_witness :
  isStart declare_speed = Ok true /\ isControl declare_speed = true
  /\ 0 <= 7 < 2 ^ 32.
Proof.
  apply (proj1 (control_decoders_ids declare_speed)
           (StartRecordData.mk 7 (str_lit "speed") (str_lit "double") [])).
  vm_compute. reflexivity.
Defined.

(** ** Classification *)

(** X6: a record is of at most one control class, and a record of any of
    the three classes is a control record. *)
Theorem classification_exclusive (r : DataLogRecord) :
  exists s f m : bool,
    isStart r = Ok s /\ isFinish r = Ok f /\ isSetMetadata r = Ok m
    /\ s && f = false /\ s && m = false /\ f && m = false
    /\ (s || f || m = true -> isControl r = true).
Proof.
  destruct (classification_eq r) as (-> & -> & ->).
  eexists _, _, _. repeat split.
  - destruct (Z.eqb_spec (len (data r)) 5) as [-> | ];
      destruct (isControl r); cbn; try done; by rewrite ?andb_false_r.
  - unfold leading_tag_is, kControlStart, kControlSetMetadata.
    destruct (data r) as [ | b l]; [by rewrite !andb_false_r | ].
    destruct (Z.eqb_spec (byte_val b) 0) as [-> | ]; cbn;
      by rewrite ?andb_false_r.
  - unfold leading_tag_is, kControlFinish, kControlSetMetadata.
    destruct (data r) as [ | b l]; [by rewrite !andb_false_r | ].
    destruct (Z.eqb_spec (byte_val b) 1) as [-> | ]; cbn;
      by rewrite ?andb_false_r.
  - destruct (isControl r); [done | ]. cbn. discriminate.
Qed.

(** Witness for X6: the declaration of stream 7 is a start record only. *)
Lemma classification_exclusive_witness :
  exists s f m : bool,
    isStart declare_speed = Ok s /\ isFinish declare_speed = Ok f
    /\ isSetMetadata declare_speed = Ok m
    /\ s && f = false /\ s && m = false /\ f && m = false
    /\ (s || f || m = true -> isControl declare_speed = true).
Proof. exact (classification_exclusive declare_speed). Defined.

(** ** The fields of a yielded record *)

Lemma field_range (b : list byte) (a w : Z) :
  0 <= a -> 0 <= w ->
  0 <= from_bytes_le (slice b a (a + w)) < 256 ^ w.
Proof.
  intros Ha Hw. pose proof (from_bytes_le_range (slice b a (a + w))) as [H0 H1].
  pose proof (len_slice_le b a (a + w) ltac:(lia)).
  pose proof (len_nonneg (slice b a (a + w))).
  split; [done | ]. eapply Z.lt_le_trans; [exact H1 | ].
  apply Z.pow_le_mono_r; lia.
Qed.

(** X7: every record the iterator yields has a u32 stream id, a u64
    timestamp and a payload of fewer than 2^32 bytes that lies inside the
    buffer. *)
Theorem next_record_bounds (b : list byte) (p : Z) (r : DataLogRecord)
    (it' : DataLogIterator) :
  0 <= p ->
  __next__ (mkIterator b p) = Ok (r, it') ->
  0 <= entry r < 2 ^ 32
  /\ 0 <= timestamp r < 2 ^ 64
  /\ len (data r) < 2 ^ 32
  /\ len (data r) <= len b - p - 4.
Proof.
  intros Hp H.
  destruct (next_advance b p r it' Hp H) as (-> & _ & Hlen & Hfit).
  pose proof (entryLen_range b p) as He. pose proof (sizeLen_range b p) as Hs.
  pose proof (timestampLen_range b p) as Ht.
  pose proof (headerLen_range b p) as Hh.
  assert (Hpow : forall w k, 0 <= w <= k -> 256 ^ w <= 256 ^ k).
  { intros w k Hw. apply Z.pow_le_mono_r; lia. }
  split; [ | split; [ | split]].
  - cbn [entry record_at]. unfold entry_at.
    pose proof (field_range b (p + 1) (entryLen_at b p) ltac:(lia) ltac:(lia)).
    pose proof (Hpow (entryLen_at b p) 4 ltac:(lia)).
    change (2 ^ 32) with (256 ^ 4). lia.
  - cbn [timestamp record_at]. unfold timestamp_at.
    pose proof (field_range b (p + 1 + entryLen_at b p + sizeLen_at b p)
                  (timestampLen_at b p) ltac:(lia) ltac:(lia)).
    pose proof (Hpow (timestampLen_at b p) 8 ltac:(lia)).
    change (2 ^ 64) with (256 ^ 8). lia.
  - rewrite Hlen. unfold payloadSize_at.
    pose proof (field_range b (p + 1 + entryLen_at b p)
                  (sizeLen_at b p) ltac:(lia) ltac:(lia)).
    pose proof (Hpow (sizeLen_at b p) 4 ltac:(lia)).
    change (2 ^ 32) with (256 ^ 4). lia.
  - lia.
Qed.

(** Witness for X7: the first record of a two-record log. *)
Lemma next_record_bounds_witness :
  0 <= 3 < 2 ^ 32 /\ 0 <= 9 < 2 ^ 64
  /\ len [x01] < 2 ^ 32
  /\ len [x01]
     <= len (log_header ++ encode_record 1 1 1 (mkRecord 3 9 [x01])
                        ++ encode_record 2 1 1 (mkRecord 4 8 [])) - 12 - 4.
Proof.
  apply (next_record_bounds
           (log_header ++ encode_record 1 1 1 (mkRecord 3 9 [x01])
                       ++ encode_record 2 1 1 (mkRecord 4 8 []))
           12 (mkRecord 3 9 [x01])
           (mkIterator
              (log_header ++ encode_record 1 1 1 (mkRecord 3 9 [x01])
                          ++ encode_record 2 1 1 (mkRecord 4 8 []))
              17)).
  - lia.
  - vm_compute. reflexivity.
Defined.

(** ** The varint reader outside the buffer *)

Lemma fold_readVarInt_raise (b : list byte) (p : Z) (e : exn) (l : list Z) :
  fold_left
    (fun acc i =>
       let* val := acc in
       let* x := index b (p + i) in
       Ok (Z.lor val (Z.shiftl x (i * 8))))
    l (Raise e)
  = Raise e.
Proof. induction l as [ | i l IH]; [done | apply IH]. Qed.

Lemma index_out_of_range (b : list byte) (i : Z) :
  len b <= i -> index b i = Raise IndexError.
Proof.
  intros Hi. pose proof (len_nonneg b). unfold index.
  destruct (Z.ltb_spec i 0); [lia | ].
  destruct (Z.ltb_spec i 0); [lia | ].
  rewrite lookup_ge_None_2; [done | ]. unfold len in Hi. lia.
Qed.

(** X8: [_readVarInt] has no bounds check of its own: when the [n] bytes at
    [p] lie inside the buffer it returns their little-endian value, which is
    below [256^n]; when they do not, it raises [IndexError]. *)
Theorem readVarInt_bounds (b : list byte) (p n : Z) :
  0 <= p -> 0 < n ->
  (p + n <= len b ->
   exists v, _readVarInt b p n = Ok v
             /\ v = from_bytes_le (firstn (Z.to_nat n) (skipn (Z.to_nat p) b))
             /\ 0 <= v < 256 ^ n)
  /\ (len b < p + n -> _readVarInt b p n = Raise IndexError).
Proof.
  intros Hp Hn. split.
  - intros Hfit. eexists. split; [by apply readVarInt_width; lia | ].
    split.
    + rewrite slice_nonneg by lia. do 2 f_equal. lia.
    + apply field_range; lia.
  - intros Hout. pose proof (len_nonneg b) as Hb.
    set (k := Z.to_nat (Z.max 0 (len b - p))).
    assert (Hk : (k < Z.to_nat n)%nat) by lia.
    unfold _readVarInt.
    assert (Hrange : range n
                     = range (Z.of_nat k) ++ Z.of_nat k
                         :: map Z.of_nat (seq (S k) (Z.to_nat n - S k))).
    { unfold range. rewrite Nat2Z.id.
      replace (Z.to_nat n) with (k + S (Z.to_nat n - S k))%nat at 1 by lia.
      rewrite seq_app, map_app. done. }
    rewrite Hrange, fold_left_app.
    assert (Hpre : exists v, _readVarInt b p (Z.of_nat k) = Ok v).
    { destruct (Z_le_gt_dec p (len b)).
      - eexists. apply readVarInt_slice; lia.
      - replace k with 0%nat by lia. by exists 0. }
    destruct Hpre as [v Hpre]. unfold _readVarInt in Hpre. rewrite Hpre.
    cbn [fold_left bind].
    rewrite index_out_of_range by lia. cbn [bind].
    apply fold_readVarInt_raise.
Qed.

(** Witness for X8: two bytes read at offset 1 of a 3-byte and of a 2-byte
    buffer. *)
Lemma readVarInt_bounds_witness :
  (exists v, _readVarInt [x00; x34; x12] 1 2 = Ok v
             /\ v = from_bytes_le
                      (firstn (Z.to_nat 2) (skipn (Z.to_nat 1) [x00; x34; x12]))
             /\ 0 <= v < 256 ^ 2)
  /\ _readVarInt [x00; x34] 1 2 = Raise IndexError.
Proof.
  split.
  - apply (proj1 (readVarInt_bounds [x00; x34; x12] 1 2 ltac:(lia) ltac:(lia))).
    vm_compute. discriminate.
  - apply (proj2 (readVarInt_bounds [x00; x34] 1 2 ltac:(lia) ltac:(lia))).
    vm_compute. reflexivity.
Defined.

(** ** Data payloads *)

Lemma from_bytes_le_signed_int64 (v : Z) :
  - 2 ^ 63 <= v < 2 ^ 63 -> from_bytes_le_signed (int64_bytes v) = v.
Proof.
  intros Hv. unfold from_bytes_le_signed, int64_bytes.
  rewrite len_le_bytes, from_bytes_le_bytes.
  change (256 ^ Z.of_nat 8) with (2 ^ 64). change (8 * Z.of_nat 8) with 64.
  rewrite Z.mod_mod by lia. change (0 <? 64) with true. cbn [andb].
  change (64 - 1) with 63.
  destruct (Z_lt_ge_dec v 0) as [Hneg | Hpos].
  - replace (v mod 2 ^ 64) with (v + 2 ^ 64).
    + destruct (Z.leb_spec (2 ^ 63) (v + 2 ^ 64)); lia.
    + apply Z.mod_unique with (-1); lia.
  - rewrite Z.mod_small by lia.
    destruct (Z.leb_spec (2 ^ 63) v); lia.
Qed.

Lemma from_bytes_le_signed_range (bs : list byte) :
  len bs = 8 -> - 2 ^ 63 <= from_bytes_le_signed bs < 2 ^ 63.
Proof.
  intros Hl. unfold from_bytes_le_signed. rewrite Hl.
  pose proof (from_bytes_le_range bs) as Hr. rewrite Hl in Hr.
  change (256 ^ 8) with (2 ^ 64) in Hr.
  change (0 <? 8 * 8) with true. change (8 * 8 - 1) with 63.
  change (8 * 8) with 64. cbn [andb].
  destruct (Z.leb_spec (2 ^ 63) (from_bytes_le bs)); lia.
Qed.

Lemma len_int64_bytes (v : Z) : len (int64_bytes v) = 8.
Proof. unfold int64_bytes. by rewrite len_le_bytes. Qed.

(** X9: [getInteger] reads a two's-complement value: the 8 bytes of a signed
    64-bit integer decode to that integer, and whatever it returns lies in
    the signed 64-bit range and comes from a payload of exactly 8 bytes. *)
Theorem getInteger_int64 (id ts v : Z) :
  - 2 ^ 63 <= v < 2 ^ 63 ->
  getInteger (mkRecord id ts (int64_bytes v)) = Ok v
  /\ forall r w, getInteger r = Ok w ->
                 len (data r) = 8 /\ - 2 ^ 63 <= w < 2 ^ 63.
Proof.
  intros Hv. split.
  - unfold getInteger. cbn [data]. rewrite len_int64_bytes.
    change (8 =? 8) with true. cbn [negb].
    by rewrite from_bytes_le_signed_int64.
  - intros r w. unfold getInteger.
    destruct (Z.eqb_spec (len (data r)) 8) as [E | E]; cbn [negb]; [ | done].
    intros [= <-]. split; [done | ]. by apply from_bytes_le_signed_range.
Qed.

(** Witness for X9: the integer -2. *)
Lemma getInteger_int64_witness :
  getInteger (mkRecord 7 0 (int64_bytes (-2))) = Ok (-2).
Proof. apply (getInteger_int64 7 0 (-2)). lia. Defined.

Lemma chunks_concat (n : nat) (ls : list (list byte)) (fuel : nat) :
  (0 < n)%nat ->
  Forall (fun l => length l = n) ls ->
  (length ls <= fuel)%nat ->
  chunks fuel n (concat ls) = ls.
Proof.
  intros Hn Hls. revert fuel.
  induction Hls as [ | l ls Hl _ IH]; intros fuel Hfuel.
  - by destruct fuel.
  - destruct fuel as [ | fuel]; [simpl in Hfuel; lia | ].
    cbn [concat]. destruct l as [ | x l]; [simpl in Hl; lia | ].
    cbn [app chunks]. rewrite app_comm_cons.
    rewrite <- Hl at 1 3. rewrite take_app_length, drop_app_length.
    rewrite IH; [done | simpl in Hfuel; lia].
Qed.

Lemma length_chunks (n k : nat) :
  (0 < n)%nat ->
  forall (bs : list byte) (fuel : nat),
    length bs = (k * n)%nat -> (k <= fuel)%nat ->
    length (chunks fuel n bs) = k.
Proof.
  intros Hn. induction k as [ | k IH]; intros bs fuel Hbs Hfuel.
  - destruct bs; [by destruct fuel | simpl in Hbs; lia].
  - destruct fuel as [ | fuel]; [lia | ].
    destruct bs as [ | x bs]; [simpl in Hbs; lia | ].
    cbn [chunks length]. f_equal. apply IH; [ | lia].
    rewrite length_drop, Hbs. lia.
Qed.

Lemma length_frombytes (n : nat) (bs : list byte) :
  (0 < n)%nat -> len bs mod Z.of_nat n = 0 ->
  Z.of_nat n * len (frombytes n bs) = len bs.
Proof.
  intros Hn Hmod. unfold frombytes, len in *.
  apply Z.mod_divide in Hmod; [ | lia]. destruct Hmod as [q Hq].
  assert (Hq0 : 0 <= q) by nia.
  rewrite (length_chunks n (Z.to_nat q)); [nia | done | nia | nia].
Qed.

(** X10: the three numeric array decoders return one element per item of
    the payload: [len/8] integers, [len/4] floats, [len/8] doubles. *)
Theorem array_getters_length (r : DataLogRecord) :
  (forall l, getIntegerArray r = Ok l -> 8 * len l = len (data r))
  /\ (forall l, getFloatArray r = Ok l -> 4 * len l = len (data r))
  /\ (forall l, getDoubleArray r = Ok l -> 8 * len l = len (data r)).
Proof.
  unfold getIntegerArray, getFloatArray, getDoubleArray.
  split; [ | split]; intros l.
  - destruct (Z.eqb_spec (len (data r) mod 8) 0) as [E | E]; cbn [negb]; [ | done].
    intros [= <-]. unfold len at 1. rewrite length_map.
    apply (length_frombytes 8); [lia | done].
  - destruct (Z.eqb_spec (len (data r) mod 4) 0) as [E | E]; cbn [negb]; [ | done].
    intros [= <-]. unfold len at 1. rewrite length_map.
    apply (length_frombytes 4); [lia | done].
  - destruct (Z.eqb_spec (len (data r) mod 8) 0) as [E | E]; cbn [negb]; [ | done].
    intros [= <-]. unfold len at 1. rewrite length_map.
    apply (length_frombytes 8); [lia | done].
Qed.

(** Witness for X10: a 16-byte payload holds two doubles. *)
Lemma array_getters_length_witness :
  8 * len [float_3_25; float_3_25] = len (bytes_3_25 ++ bytes_3_25).
Proof.
  apply (proj2 (proj2 (array_getters_length
                         (mkRecord 7 0 (bytes_3_25 ++ bytes_3_25))))).
  vm_compute. reflexivity.
Defined.

(** X11: an [int64[]] payload made of the 8-byte encodings of signed 64-bit
    integers decodes to these integers, in order; the empty payload decodes
    to the empty array. *)
Theorem getIntegerArray_int64s (id ts : Z) (vs : list Z) :
  Forall (fun v => - 2 ^ 63 <= v < 2 ^ 63) vs ->
  getIntegerArray (mkRecord id ts (concat (map int64_bytes vs))) = Ok vs.
Proof.
  intros Hvs. unfold getIntegerArray. cbn [data].
  assert (Hlen : len (concat (map int64_bytes vs)) = 8 * len vs).
  { clear Hvs. induction vs as [ | v vs IH]; [done | ].
    cbn [map concat]. rewrite len_app, len_int64_bytes, len_cons, IH. lia. }
  rewrite Hlen. rewrite Z.mul_comm, Z.mod_mul by lia. cbn [Z.eqb negb].
  f_equal. unfold frombytes.
  rewrite chunks_concat.
  - rewrite map_map. induction Hvs as [ | v vs Hv _ IH]; [done | ].
    cbn [map]. rewrite from_bytes_le_signed_int64 by done. f_equal.
    apply IH. rewrite Z.mul_comm in Hlen.
    cbn [map concat] in Hlen.
    rewrite len_app, len_int64_bytes, len_cons in Hlen. lia.
  - lia.
  - clear. induction vs as [ | v vs IH]; constructor; [ | done].
    pose proof (len_int64_bytes v) as H8. unfold len in H8. lia.
  - rewrite length_map. unfold len in Hlen. lia.
Qed.

(** Witness for X11: the array [-1; 2^40]. *)
Lemma getIntegerArray_int64s_witness :
  getIntegerArray (mkRecord 7 0 (concat (map int64_bytes [-1; 2 ^ 40])))
  = Ok [-1; 2 ^ 40].
Proof.
  apply (getIntegerArray_int64s 7 0 [-1; 2 ^ 40]).
  repeat constructor; lia.
Defined.

Lemma utf8_decode_ascii (bs : list byte) :
  Forall (fun b => byte_val b < 0x80) bs ->
  utf8_decode bs = Some (map byte_val bs).
Proof.
  induction 1 as [ | b bs Hb _ IH]; [done | ].
  cbn [utf8_decode map]. destruct (Z.ltb_spec (byte_val b) 128); [ | lia].
  by rewrite IH.
Qed.

(** X12: a [string] or [json] payload of ASCII bytes decodes to the text
    with the same characters; in particular the empty payload is the empty
    string. *)
Theorem getString_ascii (id ts : Z) (bs : list byte) :
  Forall (fun b => byte_val b < 0x80) bs ->
  getString (mkRecord id ts bs) = Ok (map byte_val bs).
Proof.
  intros H. unfold getString, str_utf8. cbn [data].
  by rewrite utf8_decode_ascii.
Qed.

(** Witness for X12: the text "ok". *)
Lemma getString_ascii_witness :
  getString (mkRecord 7 0 (bytes_of_string "ok")) = Ok (str_lit "ok").
Proof.
  apply (getString_ascii 7 0 (bytes_of_string "ok")).
  repeat constructor.
Defined.

(** ** The steps of the walk, case by case *)

Section WalkCases.
Variable fmt : spec_float -> result pystr.

Lemma isStart_isControl (r : DataLogRecord) :
  isStart r = Ok true -> isControl r = true.
Proof.
  destruct (classification_eq r) as (-> & _ & _). intros [= H].
  by apply andb_true_iff in H as [[Hc _]%andb_true_iff _].
Qed.

Lemma isFinish_isControl (r : DataLogRecord) :
  isFinish r = Ok true -> isControl r = true.
Proof.
  destruct (classification_eq r) as (_ & -> & _). intros [= H].
  by apply andb_true_iff in H as [[Hc _]%andb_true_iff _].
Qed.

Lemma isSetMetadata_isControl (r : DataLogRecord) :
  isSetMetadata r = Ok true -> isControl r = true.
Proof.
  destruct (classification_eq r) as (_ & _ & ->). intros [= H].
  by apply andb_true_iff in H as [[Hc _]%andb_true_iff _].
Qed.

(** The step on a record declaring a stream. *)
Lemma loop_body_start (st : walk_state) (r : DataLogRecord) :
  isStart r = Ok true ->
  loop_body fmt st r =
    match getStartData r with
    | Ok sd => Ok (set_entries st (<[StartRecordData.entry sd := sd]> (entries st)))
    | Raise (TypeError _) => Ok (set_error st)
    | Raise e => Raise e
    end.
Proof.
  intros H. unfold loop_body. rewrite H. cbn [bind].
  unfold try_except_TypeError.
  destruct (getStartData r) as [sd | []]; done.
Qed.

(** The step on a control record of none of the three classes. *)
Lemma loop_body_unrecognized (st : walk_state) (r : DataLogRecord) :
  isControl r = true ->
  isStart r = Ok false -> isFinish r = Ok false -> isSetMetadata r = Ok false ->
  loop_body fmt st r = Ok (set_error st).
Proof.
  intros Hc Hs Hf Hm. unfold loop_body. rewrite Hs, Hf, Hm. cbn [bind].
  by rewrite Hc.
Qed.

Lemma set_entries_same (st : walk_state) : set_entries st (entries st) = st.
Proof. by destruct st. Qed.

Lemma loop_body_kind (st st' : walk_state) (r : DataLogRecord) :
  loop_body fmt st r = Ok st' -> step_kind fmt st r st'.
Proof.
  destruct (isStart r) as [[ | ] | e0] eqn:Es.
  { rewrite loop_body_start by done.
    destruct (getStartData r) as [sd | []] eqn:E; intros [= <-].
    - by eapply step_declare.
    - apply step_error; [by apply isStart_isControl | done]. }
  2: { destruct (isStart_ok r) as [b Hb]. congruence. }
  destruct (isFinish r) as [[ | ] | e1] eqn:Ef.
  { unfold getFinishEntry, loop_body. rewrite Es, Ef. cbn [bind negb].
    unfold getFinishEntry. rewrite Ef. cbn [bind negb try_except_TypeError].
    destruct (entries st !! _) eqn:El; intros [= <-].
    - eapply step_retire; [ | done]. unfold getFinishEntry. by rewrite Ef.
    - by apply step_skip. }
  2: { destruct (isFinish_ok r) as [b Hb]. congruence. }
  destruct (isSetMetadata r) as [[ | ] | e2] eqn:Em.
  { rewrite loop_body_setmetadata by done.
    destruct (getSetMetadataData r) as [md | []]; intros [= <-].
    - by apply step_skip.
    - apply step_error; [by apply isSetMetadata_isControl | done]. }
  2: { destruct (isSetMetadata_ok r) as [b Hb]. congruence. }
  destruct (isControl r) eqn:Ec.
  { rewrite loop_body_unrecognized by done. intros [= <-].
    by apply step_error. }
  rewrite loop_body_data by done.
  destruct (entries st !! entry r) as [d | ] eqn:El.
  - destruct (extract_value_from_entry fmt d r) as [row | ] eqn:Er;
      cbn [bind]; intros [= <-].
    by eapply step_row.
  - intros [= <-]. by apply step_skip.
Qed.

End WalkCases.

(** ** Invariants of the walk *)

Lemma table_ok_step (fmt : spec_float -> result pystr)
    (st st' : walk_state) (r : DataLogRecord) :
  table_ok (entries st) -> loop_body fmt st r = Ok st' -> table_ok (entries st').
Proof.
  intros Hok H. destruct (loop_body_kind fmt st st' r H)
    as [sd Hsd -> | X HX -> | Hc -> | -> | d row Hc Hd Hrow ->];
    cbn [set_entries set_error append_output entries]; try done.
  - intros k d. rewrite lookup_insert_Some. intros [[<- <-] | [_ Hk]].
    + split; [done | ]. destruct (getStartData_isStart r sd Hsd) as [_ ->].
      pose proof (u32_field_range (data r) 1 ltac:(lia)) as Hu.
      by change (1 + 4) with 5 in Hu.
    + by apply Hok.
  - intros k d. rewrite lookup_delete_Some. intros [_ Hk]. by apply Hok.
Qed.

(** X13: the stream table stays consistent along a walk: every descriptor
    is stored under its own stream id, which is a u32. *)
Theorem walk_table_ok (fmt : spec_float -> result pystr)
    (rs : list DataLogRecord) (st st' : walk_state) :
  table_ok (entries st) -> walk fmt st rs = Ok st' -> table_ok (entries st').
Proof.
  revert st. induction rs as [ | r rs IH]; intros st Hok.
  - by intros [= <-].
  - simpl walk. destruct (loop_body fmt st r) as [st1 | e] eqn:E; [ | done].
    cbn [bind]. apply IH. by apply (table_ok_step fmt st st1 r).
Qed.

Lemma table_ok_empty : table_ok (entries initial_state).
Proof. intros k d. cbn. by rewrite lookup_empty. Qed.

(** Witness for X13: the table after a declaration of stream 7. *)
Lemma walk_table_ok_witness :
  table_ok (<[7 := StartRecordData.mk 7 (str_lit "speed") (str_lit "double") []]> ∅).
Proof.
  assert (Hw : walk no_local_time initial_state [declare_speed]
               = Ok (mkState [] None
                       (<[7 := StartRecordData.mk 7 (str_lit "speed")
                                 (str_lit "double") []]> ∅))).
  { vm_compute. reflexivity. }
  exact (walk_table_ok no_local_time [declare_speed] initial_state _
           table_ok_empty Hw).
Defined.

Lemma error_step (fmt : spec_float -> result pystr)
    (st st' : walk_state) (r : DataLogRecord) :
  loop_body fmt st r = Ok st' ->
  error st' = error st \/ error st' = Some error_message.
Proof.
  intros H. destruct (loop_body_kind fmt st st' r H)
    as [sd Hsd -> | X HX -> | Hc -> | -> | d row Hc Hd Hrow ->];
    cbn [set_entries set_error append_output error]; auto.
Qed.

(** X14: the error signal is a single aggregate flag: along a walk it is
    never cleared once set, and it is only ever unset or the one message of
    the program. *)
Theorem walk_error_sticky (fmt : spec_float -> result pystr)
    (rs : list DataLogRecord) (st st' : walk_state) :
  walk fmt st rs = Ok st' ->
  (error st <> None -> error st' <> None)
  /\ (error_ok (error st) -> error_ok (error st')).
Proof.
  revert st. induction rs as [ | r rs IH]; intros st.
  - by intros [= <-].
  - simpl walk. destruct (loop_body fmt st r) as [st1 | e] eqn:E; [ | done].
    cbn [bind]. intros H. destruct (IH st1 H) as [IH1 IH2].
    destruct (error_step fmt st st1 r E) as [He | He]; rewrite He in *.
    + done.
    + split; intros _; [apply IH1 | apply IH2]; [done | by right].
Qed.

(** Witness for X14: an error set before a well-formed declaration is still
    set after it. *)
Lemma walk_error_sticky_witness :
  error (mkState [] (Some error_message)
           (<[7 := StartRecordData.mk 7 (str_lit "speed") (str_lit "double") []]> ∅))
  <> None.
Proof.
  assert (Hw : walk no_local_time (mkState [] (Some error_message) ∅)
                 [declare_speed]
               = Ok (mkState [] (Some error_message)
                       (<[7 := StartRecordData.mk 7 (str_lit "speed")
                                 (str_lit "double") []]> ∅))).
  { vm_compute. reflexivity. }
  apply (proj1 (walk_error_sticky no_local_time [declare_speed] _ _ Hw)).
  discriminate.
Defined.

Lemma output_step (fmt : spec_float -> result pystr)
    (st st' : walk_state) (r : DataLogRecord) :
  loop_body fmt st r = Ok st' ->
  exists rows, output st' = output st ++ rows
               /\ (length rows <= count_data [r])%nat.
Proof.
  intros H. destruct (loop_body_kind fmt st st' r H)
    as [sd Hsd -> | X HX -> | Hc -> | -> | d row Hc Hd Hrow ->];
    cbn [set_entries set_error append_output output];
    try (exists []; rewrite app_nil_r; split; [done | simpl; lia]).
  exists [row]. split; [done | ]. unfold count_data. cbn [List.filter].
  rewrite Hc. simpl. lia.
Qed.

Lemma count_data_cons (r : DataLogRecord) (rs : list DataLogRecord) :
  count_data (r :: rs) = (count_data [r] + count_data rs)%nat.
Proof.
  unfold count_data. cbn [List.filter]. destruct (negb (isControl r)); simpl; lia.
Qed.

(** X15: a walk only appends to the output: the rows present before it are
    kept, in order, and it adds at most one row per data record; control
    records add none. *)
Theorem walk_output_grows (fmt : spec_float -> result pystr)
    (rs : list DataLogRecord) (st st' : walk_state) :
  walk fmt st rs = Ok st' ->
  exists rows, output st' = output st ++ rows
               /\ (length rows <= count_data rs)%nat.
Proof.
  revert st. induction rs as [ | r rs IH]; intros st.
  - intros [= <-]. exists []. by rewrite app_nil_r.
  - simpl walk. destruct (loop_body fmt st r) as [st1 | e] eqn:E; [ | done].
    cbn [bind]. intros H.
    destruct (output_step fmt st st1 r E) as (rows1 & Ho1 & Hl1).
    destruct (IH st1 H) as (rows2 & Ho2 & Hl2).
    exists (rows1 ++ rows2). split.
    + by rewrite Ho2, Ho1, app_assoc.
    + rewrite length_app, count_data_cons. lia.
Qed.

(** Witness for X15: a declaration and a metadata update add no row. *)
Lemma walk_output_grows_witness :
  exists rows,
    output (mkState [] None
              (<[7 := StartRecordData.mk 7 (str_lit "speed") (str_lit "double") []]> ∅))
    = output initial_state ++ rows
    /\ (length rows <= 0)%nat.
Proof.
  assert (Hw : walk no_local_time initial_state [declare_speed; annotate_speed]
               = Ok (mkState [] None
                       (<[7 := StartRecordData.mk 7 (str_lit "speed")
                                 (str_lit "double") []]> ∅))).
  { vm_compute. reflexivity. }
  exact (walk_output_grows no_local_time [declare_speed; annotate_speed]
           initial_state _ Hw).
Defined.

(** ** Declaring and retiring streams *)

Lemma loop_body_declare (fmt : spec_float -> result pystr)
    (st : walk_state) (r : DataLogRecord) (sd : StartRecordData.t) :
  getStartData r = Ok sd ->
  loop_body fmt st r
  = Ok (set_entries st (<[StartRecordData.entry sd := sd]> (entries st))).
Proof.
  intros H. destruct (getStartData_isStart r sd H) as [Hs _].
  rewrite loop_body_start by done. by rewrite H.
Qed.

(** X16: the step on a well-formed declaration stores the descriptor under
    its stream id, replacing any descriptor already there, and touches
    nothing else: the other streams, the output and the error signal are as
    before. *)
Theorem declare_step (fmt : spec_float -> result pystr)
    (st : walk_state) (r : DataLogRecord) (sd : StartRecordData.t) :
  getStartData r = Ok sd ->
  exists st',
    loop_body fmt st r = Ok st'
    /\ entries st' !! StartRecordData.entry sd = Some sd
    /\ (forall k, k <> StartRecordData.entry sd ->
                  entries st' !! k = entries st !! k)
    /\ output st' = output st
    /\ error st' = error st.
Proof.
  intros H. eexists. split; [by apply loop_body_declare | ].
  cbn [set_entries entries output error]. repeat split.
  - apply lookup_insert_eq.
  - intros k Hk. by apply lookup_insert_ne.
Qed.

(** Witness for X16: declaring stream 7 in the empty table. *)
Lemma declare_step_witness :
  exists st',
    loop_body no_local_time initial_state declare_speed = Ok st'
    /\ entries st' !! 7
       = Some (StartRecordData.mk 7 (str_lit "speed") (str_lit "double") [])
    /\ (forall k, k <> 7 -> entries st' !! k = entries initial_state !! k)
    /\ output st' = output initial_state
    /\ error st' = error initial_state.
Proof.
  assert (Hd : getStartData declare_speed
               = Ok (StartRecordData.mk 7 (str_lit "speed") (str_lit "double") [])).
  { vm_compute. reflexivity. }
  exact (declare_step no_local_time initial_state declare_speed _ Hd).
Defined.

(** X17: a later declaration of a stream id fully replaces the earlier one:
    the two declarations in a row leave the state that the second alone
    leaves. *)
Theorem redeclare_replaces (fmt : spec_float -> result pystr)
    (st : walk_state) (r1 r2 : DataLogRecord) (sd1 sd2 : StartRecordData.t) :
  getStartData r1 = Ok sd1 ->
  getStartData r2 = Ok sd2 ->
  StartRecordData.entry sd1 = StartRecordData.entry sd2 ->
  walk fmt st [r1; r2] = walk fmt st [r2].
Proof.
  intros H1 H2 He. simpl walk.
  rewrite (loop_body_declare fmt st r1 sd1 H1). cbn [bind].
  rewrite !(loop_body_declare fmt _ r2 sd2 H2). cbn [bind].
  unfold set_entries. cbn [output error entries].
  by rewrite He, insert_insert_eq.
Qed.

(** Witness for X17: stream 7 declared as "speed" of type "double", then as
    "rpm" of type "int64". *)
Lemma redeclare_replaces_witness :
  walk no_local_time initial_state
    [declare_speed;
     mkRecord 0 2 (encode_start 7 (bytes_of_string "rpm")
                     (bytes_of_string "int64") [])]
  = walk no_local_time initial_state
      [mkRecord 0 2 (encode_start 7 (bytes_of_string "rpm")
                       (bytes_of_string "int64") [])].
Proof.
  assert (H1 : getStartData declare_speed
               = Ok (StartRecordData.mk 7 (str_lit "speed") (str_lit "double") [])).
  { vm_compute. reflexivity. }
  assert (H2 : getStartData
                 (mkRecord 0 2 (encode_start 7 (bytes_of_string "rpm")
                                  (bytes_of_string "int64") []))
               = Ok (StartRecordData.mk 7 (str_lit "rpm") (str_lit "int64") [])).
  { vm_compute. reflexivity. }
  exact (redeclare_replaces no_local_time initial_state _ _ _ _ H1 H2 eq_refl).
Defined.

(** X18: declaring a stream id that is not in the table and then retiring
    it leaves the state exactly as it was. *)
Theorem declare_then_retire (fmt : spec_float -> result pystr)
    (st : walk_state) (r1 r2 : DataLogRecord) (sd : StartRecordData.t) :
  getStartData r1 = Ok sd ->
  getFinishEntry r2 = Ok (StartRecordData.entry sd) ->
  entries st !! StartRecordData.entry sd = None ->
  walk fmt st [r1; r2] = Ok st.
Proof.
  intros H1 H2 Habs. simpl walk.
  rewrite (loop_body_declare fmt st r1 sd H1). cbn [bind].
  rewrite (loop_body_finish fmt _ r2 _ H2). cbn [bind].
  cbn [set_entries entries output error]. rewrite lookup_insert_eq.
  rewrite delete_insert_eq, delete_id by done.
  by destruct st.
Qed.

(** Witness for X18: stream 7 declared and retired from the empty table. *)
Lemma declare_then_retire_witness :
  walk no_local_time initial_state [declare_speed; retire_speed]
  = Ok initial_state.
Proof.
  assert (H1 : getStartData declare_speed
               = Ok (StartRecordData.mk 7 (str_lit "speed") (str_lit "double") [])).
  { vm_compute. reflexivity. }
  assert (H2 : getFinishEntry retire_speed = Ok 7).
  { vm_compute. reflexivity. }
  exact (declare_then_retire no_local_time initial_state _ _ _ H1 H2 eq_refl).
Defined.

(** ** Control records that are refused *)

(** X19: a declaration whose name announces more bytes than the payload
    holds is refused: the step sets the error signal and changes nothing
    else. *)
Theorem truncated_declare_sets_error (fmt : spec_float -> result pystr)
    (st : walk_state) (ts id n : Z) (rest : list byte) :
  0 <= n < 2 ^ 32 ->
  8 <= len rest < n ->
  loop_body fmt st
    (mkRecord 0 ts
       (byte_of_Z kControlStart :: le_bytes 4 id ++ le_bytes 4 n ++ rest))
  = Ok (set_error st).
Proof.
  intros Hn Hrest.
  set (r := mkRecord 0 ts _).
  assert (Hlen : len (data r) = 9 + len rest).
  { unfold r. cbn [data]. rewrite len_cons, !len_app, !len_le_bytes. lia. }
  assert (Hs : isStart r = Ok true).
  { destruct (classification_eq r) as (-> & _ & _). f_equal.
    rewrite Hlen. unfold isControl, leading_tag_is, r. cbn [entry data].
    rewrite byte_val_tag by (unfold kControlStart; lia).
    rewrite !andb_true_iff, Z.leb_le, !Z.eqb_eq. repeat split; try done. lia. }
  rewrite loop_body_start by done.
  unfold getStartData. rewrite Hs. cbn [bind negb].
  unfold _readInnerString at 1.
  rewrite (slice_middle (data r) (byte_of_Z kControlStart :: le_bytes 4 id)
             (le_bytes 4 n) rest).
  - rewrite from_bytes_le_bytes_fit by (change (256 ^ Z.of_nat 4) with (2 ^ 32); lia).
    rewrite Hlen. case_ltb; [done | lia].
  - unfold r. cbn [data]. norm_app.
  - by rewrite len_cons, len_le_bytes.
  - rewrite len_cons, !len_le_bytes. lia.
Qed.

(** Witness for X19: a name of 1000 announced bytes in an 8-byte rest. *)
Lemma truncated_declare_sets_error_witness :
  loop_body no_local_time initial_state
    (mkRecord 0 1
       (byte_of_Z kControlStart :: le_bytes 4 7 ++ le_bytes 4 1000 ++ le_bytes 8 0))
  = Ok (set_error initial_state).
Proof.
  apply (truncated_declare_sets_error no_local_time initial_state 1 7 1000
           (le_bytes 8 0)).
  - lia.
  - unfold len. simpl. lia.
Defined.

(** X20: a control record whose payload is shorter than 5 bytes, or whose
    leading tag is above 2, is of none of the three classes: the step sets
    the error signal and changes nothing else. *)
Theorem unrecognized_control_sets_error (fmt : spec_float -> result pystr)
    (st : walk_state) (r : DataLogRecord) :
  entry r = 0 ->
  len (data r) < 5 \/ (exists b l, data r = b :: l /\ 2 < byte_val b) ->
  loop_body fmt st r = Ok (set_error st).
Proof.
  intros He Hshape.
  destruct (classification_eq r) as (Hs & Hf & Hm).
  assert (Hc : isControl r = true) by (unfold isControl; by rewrite He).
  apply loop_body_unrecognized; try done.
  - rewrite Hs. f_equal. destruct Hshape as [Hl | (b & l & Hd & Hb)].
    + destruct (Z.leb_spec 17 (len (data r))); [lia | ]. by rewrite andb_false_r.
    + unfold leading_tag_is, kControlStart. rewrite Hd.
      destruct (Z.eqb_spec (byte_val b) 0); [lia | apply andb_false_r].
  - rewrite Hf. f_equal. destruct Hshape as [Hl | (b & l & Hd & Hb)].
    + destruct (Z.eqb_spec (len (data r)) 5); [lia | ]. by rewrite andb_false_r.
    + unfold leading_tag_is, kControlFinish. rewrite Hd.
      destruct (Z.eqb_spec (byte_val b) 1); [lia | apply andb_false_r].
  - rewrite Hm. f_equal. destruct Hshape as [Hl | (b & l & Hd & Hb)].
    + destruct (Z.leb_spec 9 (len (data r))); [lia | ]. by rewrite andb_false_r.
    + unfold leading_tag_is, kControlSetMetadata. rewrite Hd.
      destruct (Z.eqb_spec (byte_val b) 2); [lia | apply andb_false_r].
Qed.

(** Witness for X20: a control record with an empty payload. *)
Lemma unrecognized_control_sets_error_witness :
  loop_body no_local_time initial_state (mkRecord 0 1 [])
  = Ok (set_error initial_state).
Proof.
  apply (unrecognized_control_sets_error no_local_time initial_state
           (mkRecord 0 1 [])).
  - reflexivity.
  - left. unfold len. simpl. lia.
Defined.

(** ** Value types that are not decoded *)

Lemma str_eqb_neq (a b : pystr) : a <> b -> str_eqb a b = false.
Proof.
  intros H. destruct (str_eqb a b) eqn:E; [ | done].
  by apply str_eqb_eq in E.
Qed.

(** X21: a stream whose value type is none of the ten types the program
    decodes yields a row whose value is [None], whatever the payload, and the
    decoding raises nothing; this is so for the type "float". *)
Theorem extract_undecoded_type (fmt : spec_float -> result pystr)
    (d : StartRecordData.t) (r : DataLogRecord) :
  ~ In (StartRecordData.type d) decoded_types ->
  extract_value_from_entry fmt d r
  = Ok (mkOutput (int_truediv (timestamp r) 1000000)
                 (StartRecordData.name d) VNone).
Proof.
  intros Hnot. unfold extract_value_from_entry.
  assert (Hne : forall s, In (str_lit s) decoded_types ->
                          str_eqb (StartRecordData.type d) (str_lit s) = false).
  { intros s Hin. apply str_eqb_neq. intros Heq. apply Hnot. by rewrite Heq. }
  rewrite !Hne by (unfold decoded_types; simpl; tauto).
  by rewrite andb_false_r.
Qed.

(** Witness for X21: a record on a stream declared with type "float". *)
Lemma extract_undecoded_type_witness :
  extract_value_from_entry no_local_time
    (StartRecordData.mk 7 (str_lit "ratio") (str_lit "float") [])
    (mkRecord 7 2000000 (le_bytes 4 0x40500000))
  = Ok (mkOutput (int_truediv 2000000 1000000) (str_lit "ratio") VNone).
Proof.
  apply (extract_undecoded_type no_local_time
           (StartRecordData.mk 7 (str_lit "ratio") (str_lit "float") [])
           (mkRecord 7 2000000 (le_bytes 4 0x40500000))).
  vm_compute. intuition discriminate.
Defined.

(** ** The global header *)

(** X22: a global header built from 8 bytes of magic and version and an
    extra header gives the extra header back, and iteration starts right
    after it, at offset 12 plus its length. *)
Theorem global_header_roundtrip (magic_version extra rest : list byte)
    (s : pystr) :
  len magic_version = 8 ->
  spells extra s ->
  getExtraHeader (encode_global_header magic_version extra ++ rest) = Ok s
  /\ __iter__ (encode_global_header magic_version extra ++ rest)
     = mkIterator (encode_global_header magic_version extra ++ rest)
         (12 + len extra).
Proof.
  intros Hmv [Hlen Hs].
  set (b := encode_global_header magic_version extra ++ rest).
  pose proof (len_nonneg extra). pose proof (len_nonneg rest).
  assert (Hb : b = magic_version ++ le_bytes 4 (len extra) ++ extra ++ rest).
  { unfold b, encode_global_header. norm_app. }
  assert (Hsize : from_bytes_le (slice b 8 12) = len extra).
  { rewrite (slice_middle b magic_version (le_bytes 4 (len extra))
               (extra ++ rest)); try done.
    - apply from_bytes_le_bytes_fit. change (256 ^ Z.of_nat 4) with (2 ^ 32). lia.
    - rewrite Hmv, len_le_bytes. lia. }
  split.
  - unfold getExtraHeader. rewrite Hsize. case_ltb.
    + rewrite Hb, !len_app, len_le_bytes in *. lia.
    + rewrite (slice_middle b (magic_version ++ le_bytes 4 (len extra))
                 extra rest).
      * unfold str_utf8. by rewrite Hs.
      * rewrite Hb. norm_app.
      * rewrite len_app, len_le_bytes, Hmv. lia.
      * rewrite len_app, len_le_bytes, Hmv. lia.
  - unfold __iter__. by rewrite Hsize.
Qed.

(** Witness for X22: the extra header "rio". *)
Lemma global_header_roundtrip_witness :
  getExtraHeader
    (encode_global_header (WPILOG ++ le_bytes 2 0x0100) (bytes_of_string "rio")
     ++ [x00])
  = Ok (str_lit "rio")
  /\ __iter__
       (encode_global_header (WPILOG ++ le_bytes 2 0x0100)
          (bytes_of_string "rio") ++ [x00])
     = mkIterator
         (encode_global_header (WPILOG ++ le_bytes 2 0x0100)
            (bytes_of_string "rio") ++ [x00])
         (12 + len (bytes_of_string "rio")).
Proof.
  apply (global_header_roundtrip (WPILOG ++ le_bytes 2 0x0100)
           (bytes_of_string "rio") [x00] (str_lit "rio")).
  - reflexivity.
  - split; [unfold len; simpl; lia | reflexivity].
Defined.

Lemma iter_pos_min (b : list byte) : 12 <= pos (__iter__ b).
Proof.
  unfold __iter__. cbn [pos].
  pose proof (from_bytes_le_range (slice b 8 12)). lia.
Qed.

(** X23: a buffer shorter than 16 bytes holds no record: whatever its
    bytes are, the conversion returns the empty list and no error; and below
    12 bytes the version reads 0, the extra header is empty and the log is
    not valid. *)
Theorem short_buffer (fmt : spec_float -> result pystr) (b : list byte) :
  len b < 16 ->
  convert_data_log_to_list fmt b = Some (Ok ([], None))
  /\ (len b < 12 ->
      getVersion b = 0 /\ getExtraHeader b = Ok [] /\ isValid b = false).
Proof.
  intros Hlen. split.
  - unfold convert_data_log_to_list. cbn [for_record_in].
    pose proof (iter_pos_min b) as Hp.
    destruct (__iter__ b) as [b' p] eqn:E.
    assert (Hb : b' = b) by (unfold __iter__ in E; congruence). subst b'.
    cbn [pos] in Hp. rewrite next_unfold by lia.
    case_ltb; [done | lia].
  - intros H12. unfold getVersion, getExtraHeader, isValid.
    destruct (Z.ltb_spec (len b) 12); [ | lia].
    destruct (Z.leb_spec 12 (len b)); [lia | done].
Qed.

(** Witness for X23: the 12 bytes of a global header alone. *)
Lemma short_buffer_witness :
  convert_data_log_to_list no_local_time log_header = Some (Ok ([], None)).
Proof.
  apply (short_buffer no_local_time log_header).
  unfold len. simpl. lia.
Defined.

(** ** The conversion of a whole log *)

Lemma length_concat_frames (frames : list Frame) :
  (length frames <= length (concat (map encode_frame frames)))%nat.
Proof.
  induction frames as [ | f fs IH]; [done | ].
  cbn [map concat]. rewrite length_app. unfold encode_frame at 1.
  unfold encode_record, encode_header. simpl length. lia.
Qed.

Lemma next_at_end (b : list byte) :
  __next__ (mkIterator b (len b)) = Raise StopIteration.
Proof.
  pose proof (len_nonneg b). rewrite next_unfold by lia.
  case_ltb; [done | lia].
Qed.

(** X24: the conversion of a log made of a global header and encoded
    records is the walk over these records: its output and error signal when
    the walk returns, its exception when the walk raises. *)
Theorem convert_encoded_log (fmt : spec_float -> result pystr)
    (magic_version extra : list byte) (frames : list Frame) :
  len magic_version = 8 ->
  len extra < 2 ^ 32 ->
  Forall well_formed frames ->
  convert_data_log_to_list fmt
    (encode_global_header magic_version extra
     ++ concat (map encode_frame frames))
  = Some (match walk fmt initial_state (map raw frames) with
          | Ok st => Ok (output st, error st)
          | Raise e => Raise e
          end).
Proof.
  intros Hmv Hextra Hwf.
  set (pre := encode_global_header magic_version extra).
  set (C := concat (map encode_frame frames)).
  pose proof (len_nonneg extra).
  assert (Hpre : len pre = 12 + len extra).
  { unfold pre, encode_global_header. rewrite !len_app, len_le_bytes. lia. }
  assert (Hiter : __iter__ (pre ++ C) = mkIterator (pre ++ C) (len pre)).
  { unfold __iter__. f_equal. rewrite Hpre. f_equal.
    rewrite (slice_middle (pre ++ C) magic_version (le_bytes 4 (len extra))
               (extra ++ C)).
    - apply from_bytes_le_bytes_fit. change (256 ^ Z.of_nat 4) with (2 ^ 32). lia.
    - unfold pre, encode_global_header. norm_app.
    - done.
    - rewrite Hmv, len_le_bytes. lia. }
  assert (Hit : iterate (S (length (pre ++ C))) (mkIterator (pre ++ C) (len pre))
                = Some (Ok (map raw frames))).
  { rewrite <- (app_nil_r C) at 1 2. apply iterate_frames; [done | | ].
    - fold C. rewrite app_nil_r, <- len_app. apply next_at_end.
    - rewrite app_nil_r, length_app.
      pose proof (length_concat_frames frames). fold C in H0. lia. }
  unfold convert_data_log_to_list. rewrite Hiter.
  rewrite (for_record_in_walk fmt _ _ _ _ Hit).
  by destruct (walk fmt initial_state (map raw frames)).
Qed.

(** Witness for X24: a log that declares stream 7 and carries one record
    on it. *)
Lemma convert_encoded_log_witness :
  convert_data_log_to_list no_local_time
    (encode_global_header (WPILOG ++ le_bytes 2 0x0100) []
     ++ concat (map encode_frame
                  [mkFrame 1 1 1 declare_speed;
                   mkFrame 1 1 4 (mkRecord 7 1500000 bytes_3_25)]))
  = Some (match walk no_local_time initial_state
                  (map raw [mkFrame 1 1 1 declare_speed;
                            mkFrame 1 1 4 (mkRecord 7 1500000 bytes_3_25)]) with
          | Ok st => Ok (output st, error st)
          | Raise e => Raise e
          end).
Proof.
  apply (convert_encoded_log no_local_time (WPILOG ++ le_bytes 2 0x0100) []
           [mkFrame 1 1 1 declare_speed;
            mkFrame 1 1 4 (mkRecord 7 1500000 bytes_3_25)]).
  - reflexivity.
  - unfold len. simpl. lia.
  - repeat constructor; unfold well_formed, fits, len; simpl; lia.
Defined.

(** X25: the conversion always ends: the loop never runs out of steps and
    the iterator raises nothing but the end of the iteration, so the result
    is that of the walk over the records the buffer holds. *)
Theorem convert_terminates (fmt : spec_float -> result pystr)
    (input : list byte) :
  exists rs,
    (forall fuel, (length input < fuel)%nat ->
                  iterate fuel (__iter__ input) = Some (Ok rs))
    /\ convert_data_log_to_list fmt input
       = Some (match walk fmt initial_state rs with
               | Ok st => Ok (output st, error st)
               | Raise e => Raise e
               end).
Proof.
  destruct (convert_data_log_to_list_walk fmt input) as (rs & Hit & Hc).
  exists rs. split; [ | done].
  intros fuel Hfuel. apply (iterate_mono _ _ _ _ Hit). lia.
Qed.

(** Witness for X25: a log that holds one declaration. *)
Lemma convert_terminates_witness :
  exists rs,
    (forall fuel, (length (log_header ++ encode_record 1 1 1 declare_speed) < fuel)%nat ->
                  iterate fuel (__iter__ (log_header ++ encode_record 1 1 1 declare_speed)) = Some (Ok rs))
    /\ convert_data_log_to_list no_local_time (log_header ++ encode_record 1 1 1 declare_speed)
       = Some (match walk no_local_time initial_state rs with
               | Ok st => Ok (output st, error st)
               | Raise e => Raise e
               end).
Proof. exact (convert_terminates no_local_time (log_header ++ encode_record 1 1 1 declare_speed)). Defined.

(** ** What the conversion does not look at *)

Section SameTail.
Variables (b1 b2 : list byte) (k : nat).
Hypothesis Hlength : length b1 = length b2.
Hypothesis Htail : skipn k b1 = skipn k b2.

Lemma lookup_same_tail (i : nat) : (k <= i)%nat -> b1 !! i = b2 !! i.
Proof using Hlength Htail.
  intros Hi. replace i with (k + (i - k))%nat by lia.
  by rewrite <- !lookup_drop, Htail.
Qed.

Lemma slice_same_tail (a c : Z) :
  Z.of_nat k <= a -> 0 <= c -> slice b1 a c = slice b2 a c.
Proof using Hlength Htail.
  intros Ha Hc. rewrite !slice_nonneg by lia. f_equal.
  replace (Z.to_nat a) with (k + (Z.to_nat a - k))%nat by lia.
  by rewrite <- !drop_drop, Htail.
Qed.

Lemma len_same_tail : len b1 = len b2.
Proof using Hlength Htail. unfold len. by rewrite Hlength. Qed.

Lemma descriptor_same_tail (p : Z) :
  Z.of_nat k <= p -> descriptor_at b1 p = descriptor_at b2 p.
Proof using Hlength Htail.
  intros Hp. unfold descriptor_at. rewrite lookup_same_tail; [done | lia].
Qed.

Lemma record_same_tail (p : Z) :
  Z.of_nat k <= p ->
  headerLen_at b1 p = headerLen_at b2 p
  /\ payloadSize_at b1 p = payloadSize_at b2 p
  /\ record_at b1 p = record_at b2 p.
Proof using Hlength Htail.
  intros Hp.
  assert (He : entryLen_at b1 p = entryLen_at b2 p)
    by (unfold entryLen_at; by rewrite descriptor_same_tail).
  assert (Hs : sizeLen_at b1 p = sizeLen_at b2 p)
    by (unfold sizeLen_at; by rewrite descriptor_same_tail).
  assert (Ht : timestampLen_at b1 p = timestampLen_at b2 p)
    by (unfold timestampLen_at; by rewrite descriptor_same_tail).
  assert (Hh : headerLen_at b1 p = headerLen_at b2 p)
    by (unfold headerLen_at; by rewrite He, Hs, Ht).
  pose proof (entryLen_range b2 p). pose proof (sizeLen_range b2 p).
  pose proof (timestampLen_range b2 p). pose proof (headerLen_range b2 p).
  assert (Hp' : payloadSize_at b1 p = payloadSize_at b2 p).
  { unfold payloadSize_at. rewrite He, Hs. by rewrite slice_same_tail by lia. }
  pose proof (payloadSize_nonneg b2 p).
  repeat split; try done.
  unfold record_at, entry_at, timestamp_at. rewrite Hh, Hp', He, Hs, Ht.
  by rewrite !slice_same_tail by lia.
Qed.

Lemma next_same_tail (p : Z) :
  Z.of_nat k <= p ->
  __next__ (mkIterator b2 p)
  = match __next__ (mkIterator b1 p) with
    | Ok (r, it) => Ok (r, mkIterator b2 (pos it))
    | Raise e => Raise e
    end.
Proof using Hlength Htail.
  intros Hp. rewrite !next_unfold by lia.
  destruct (record_same_tail p Hp) as (-> & -> & ->). rewrite len_same_tail.
  repeat case_ltb; done.
Qed.

Lemma for_record_in_same_tail (fmt : spec_float -> result pystr) (fuel : nat) :
  forall (p : Z) (st : walk_state),
    Z.of_nat k <= p ->
    for_record_in fmt fuel (mkIterator b1 p) st
    = for_record_in fmt fuel (mkIterator b2 p) st.
Proof using Hlength Htail.
  induction fuel as [ | fuel IH]; intros p st Hp; [done | ].
  cbn [for_record_in]. rewrite (next_same_tail p Hp).
  destruct (__next__ (mkIterator b1 p)) as [[r it] | e] eqn:E; [ | done].
  destruct (next_advance b1 p r it ltac:(lia) E) as (_ & -> & _ & _).
  cbn [pos]. destruct (loop_body fmt st r) as [st' | e]; [ | done].
  apply IH. pose proof (headerLen_range b1 p). pose proof (len_nonneg (data r)).
  lia.
Qed.

End SameTail.

(** X26: the conversion never looks at the magic tag or at the version: two
    buffers that differ only in their first 8 bytes are converted to the same
    result, so a log is decoded whether or not [isValid] holds for it. *)
Theorem convert_ignores_magic (fmt : spec_float -> result pystr)
    (mv1 mv2 rest : list byte) :
  len mv1 = 8 -> len mv2 = 8 ->
  convert_data_log_to_list fmt (mv1 ++ rest)
  = convert_data_log_to_list fmt (mv2 ++ rest).
Proof.
  intros H1 H2. unfold len in H1, H2.
  assert (Hlength : length (mv1 ++ rest) = length (mv2 ++ rest))
    by (rewrite !length_app; lia).
  assert (Htail : skipn 8 (mv1 ++ rest) = skipn 8 (mv2 ++ rest)).
  { rewrite !drop_app_length'; [done | lia | lia]. }
  unfold convert_data_log_to_list, __iter__.
  rewrite (slice_same_tail _ _ 8 Hlength Htail 8 12) by lia.
  rewrite Hlength.
  rewrite (for_record_in_same_tail _ _ 8 Hlength Htail fmt); [done | ].
  pose proof (from_bytes_le_range (slice (mv2 ++ rest) 8 12)). lia.
Qed.

(** Witness for X26: a log whose magic and version are overwritten with
    zeros. *)
Lemma convert_ignores_magic_witness :
  convert_data_log_to_list no_local_time
    ((WPILOG ++ le_bytes 2 0x0100)
     ++ le_bytes 4 0 ++ encode_record 1 1 1 declare_speed)
  = convert_data_log_to_list no_local_time
      (le_bytes 8 0 ++ le_bytes 4 0 ++ encode_record 1 1 1 declare_speed).
Proof.
  apply (convert_ignores_magic no_local_time (WPILOG ++ le_bytes 2 0x0100)
           (le_bytes 8 0)); reflexivity.
Defined.

(** ** Data records *)

(** X27: on a stream named "systemTime" of type "int64" the value of the
    row is the host's rendering of the integer divided by 1000000, not the
    integer; when the rendering raises, so does the decoding of the record,
    and a payload that is not 8 bytes long raises the [TypeError] of
    [getInteger]. *)
Theorem systemTime_rendering (fmt : spec_float -> result pystr)
    (d : StartRecordData.t) (r : DataLogRecord) :
  StartRecordData.name d = str_lit "systemTime" ->
  StartRecordData.type d = str_lit "int64" ->
  (forall v, - 2 ^ 63 <= v < 2 ^ 63 -> data r = int64_bytes v ->
     extract_value_from_entry fmt d r
     = match fmt (int_truediv v 1000000) with
       | Ok s => Ok (mkOutput (int_truediv (timestamp r) 1000000)
                              (str_lit "systemTime") (VStr s))
       | Raise e => Raise e
       end)
  /\ (len (data r) <> 8 ->
      extract_value_from_entry fmt d r = Raise (TypeError "not an integer")).
Proof.
  intros Hname Htype. unfold extract_value_from_entry.
  rewrite Hname, Htype.
  change (str_eqb (str_lit "systemTime") (str_lit "systemTime")) with true.
  change (str_eqb (str_lit "int64") (str_lit "int64")) with true.
  cbn [andb]. split.
  - intros v Hv Hdata. unfold getInteger. rewrite Hdata, len_int64_bytes.
    change (8 =? 8) with true. cbn [negb bind].
    rewrite from_bytes_le_signed_int64 by done.
    by destruct (fmt (int_truediv v 1000000)).
  - intros Hlen. unfold getInteger.
    destruct (Z.eqb_spec (len (data r)) 8); [done | ]. done.
Qed.

(** Witness for X27: on a host that cannot render the time, the record
    raises the host's exception. *)
Lemma systemTime_rendering_witness :
  extract_value_from_entry no_local_time
    (StartRecordData.mk 1 (str_lit "systemTime") (str_lit "int64") [])
    (mkRecord 1 5 (int64_bytes 1700000000000000))
  = Raise OSError.
Proof.
  apply (proj1 (systemTime_rendering no_local_time
                  (StartRecordData.mk 1 (str_lit "systemTime") (str_lit "int64") [])
                  (mkRecord 1 5 (int64_bytes 1700000000000000))
                  eq_refl eq_refl)
           1700000000000000).
  - lia.
  - reflexivity.
Defined.

(** X28: a payload whose length is not 8 on a stream of type "double" makes
    the step raise [TypeError]: the data branch has no handler, so the walk
    over any sequence that reaches such a record raises as well, whatever
    follows it. *)
Theorem double_mismatch_raises (fmt : spec_float -> result pystr)
    (st : walk_state) (d : StartRecordData.t) (r : DataLogRecord)
    (rest : list DataLogRecord) :
  isControl r = false ->
  entries st !! entry r = Some d ->
  StartRecordData.type d = str_lit "double" ->
  len (data r) <> 8 ->
  loop_body fmt st r = Raise (TypeError "not a double")
  /\ walk fmt st (r :: rest) = Raise (TypeError "not a double").
Proof.
  intros Hc Hd Htype Hlen.
  assert (Hstep : loop_body fmt st r = Raise (TypeError "not a double")).
  { rewrite loop_body_data, Hd by done.
    unfold extract_value_from_entry. rewrite Htype.
    change (str_eqb (str_lit "double") (str_lit "int64")) with false.
    rewrite andb_false_r.
    change (str_eqb (str_lit "double") (str_lit "double")) with true.
    cbv iota. unfold getDouble.
    destruct (Z.eqb_spec (len (data r)) 8); [done | ]. done. }
  split; [done | ]. simpl walk. by rewrite Hstep.
Qed.

(** Witness for X28: a 3-byte payload on stream 7, declared as a double. *)
Lemma double_mismatch_raises_witness :
  walk no_local_time
    (mkState [] None
       (<[7 := StartRecordData.mk 7 (str_lit "speed") (str_lit "double") []]> ∅))
    [mkRecord 7 2 [x01; x02; x03]; mkRecord 7 3 bytes_3_25]
  = Raise (TypeError "not a double").
Proof.
  assert (Hd : entries
                 (mkState [] None
                    (<[7 := StartRecordData.mk 7 (str_lit "speed")
                              (str_lit "double") []]> ∅))
               !! entry (mkRecord 7 2 [x01; x02; x03])
               = Some (StartRecordData.mk 7 (str_lit "speed")
                         (str_lit "double") [])).
  { vm_compute. reflexivity. }
  apply (proj2 (double_mismatch_raises no_local_time _ _
                  (mkRecord 7 2 [x01; x02; x03]) [mkRecord 7 3 bytes_3_25]
                  eq_refl Hd eq_refl ltac:(unfold len; simpl; lia))).
Defined.

Lemma no_declaration_step (fmt : spec_float -> result pystr)
    (st st' : walk_state) (r : DataLogRecord) :
  isStart r = Ok false ->
  entries st = ∅ ->
  loop_body fmt st r = Ok st' ->
  entries st' = ∅ /\ output st' = output st.
Proof.
  intros Hs Hempty H. destruct (loop_body_kind fmt st st' r H)
    as [sd Hsd -> | X HX -> | Hc -> | -> | d row Hc Hd Hrow ->];
    cbn [set_entries set_error append_output entries output]; try done.
  - destruct (getStartData_isStart r sd Hsd) as [Hs' _]. congruence.
  - rewrite Hempty. split; [apply delete_empty | done].
  - rewrite Hempty, lookup_empty in Hd. done.
Qed.

(** X29: without a declaration there is no output: over records none of
    which is a stream declaration, a walk that starts with an empty table
    keeps it empty and drops every data record. *)
Theorem no_declaration_no_output (fmt : spec_float -> result pystr)
    (rs : list DataLogRecord) (st st' : walk_state) :
  Forall (fun r => isStart r = Ok false) rs ->
  entries st = ∅ ->
  walk fmt st rs = Ok st' ->
  entries st' = ∅ /\ output st' = output st.
Proof.
  intros Hrs. revert st. induction Hrs as [ | r rs Hr _ IH]; intros st Hempty.
  - by intros [= <-].
  - simpl walk. destruct (loop_body fmt st r) as [st1 | e] eqn:E; [ | done].
    cbn [bind]. intros H.
    destruct (no_declaration_step fmt st st1 r Hr Hempty E) as [He1 Ho1].
    destruct (IH st1 He1 H) as [He2 Ho2]. split; [done | congruence].
Qed.

(** Witness for X29: a metadata update and two data records on stream 7,
    which was never declared. *)
Lemma no_declaration_no_output_witness :
  entries (mkState [] None ∅) = ∅
  /\ output (mkState [] None ∅) = output initial_state.
Proof.
  assert (Hw : walk no_local_time initial_state
                 [annotate_speed; mkRecord 7 2 [x01]; mkRecord 7 3 bytes_3_25]
               = Ok (mkState [] None ∅)).
  { vm_compute. reflexivity. }
  apply (no_declaration_no_output no_local_time
           [annotate_speed; mkRecord 7 2 [x01]; mkRecord 7 3 bytes_3_25]
           initial_state (mkState [] None ∅)).
  - repeat constructor.
  - reflexivity.
  - exact Hw.
Defined.
